(** * Clinic front-end scripts: the page script and the realtime bootstrap

    A shallow embedding of the two scripts of the repository:
    - the page script (the [DOMContentLoaded] listener: notifications,
      modals, patient search, AJAX form submission), and
    - [firebase_app.js] (service handles, [initializeFirebase],
      [fetchRealtimeData]).

    Listeners are functions on an explicit page state.  A [fetch] is a
    request recorded in that state; the promise chain attached to it is a
    function of how the request settles, run on the page of that moment. *)

From Stdlib Require Import Ascii String DecimalString ZArith.
From stdpp Require Import base option list strings.

Local Open Scope list_scope.
Local Open Scope string_scope.
Set Warnings "-register-all".

(** ** JavaScript values, as [JSON.parse] and property reads produce them *)

Module JS.

(** A string is its sequence of code units, one [ascii] per unit: the
    strings of code units below 256. *)

(** A number, given by what the scripts observe of it: whether it is a
    zero (falsy), whether it is greater than zero, and the text
    [String(n)] prints.  Every number [JSON.parse] can produce is such a
    triple: [7] is falsy-no, positive, "7"; [1e21] prints "1e+21". *)
Record number := Number {
  numIsZero : bool;
  numIsPositive : bool;
  numPrinted : string
}.

Inductive value :=
| VUndefined
| VNull
| VBool (b : bool)
| VNum (n : number)
| VStr (s : string)
| VArr (items : list value)
| VObj (fields : list (string * value)).

(** A thrown error object: its [name] and its [message]. *)
Record error := Error { errName : string; errMessage : string }.

Inductive result (A : Type) :=
| Ok (a : A)
| Throw (e : error).
Arguments Ok {A} a.
Arguments Throw {A} e.

(** The decimal numeral of an integer: what [String(n)] prints for the
    integers of magnitude below 10^21 (an HTTP status, a length, an id). *)
Definition numToString (z : Z) : string := NilZero.string_of_int (Z.to_int z).

(** The number that is the integer [z], for [z] of magnitude below 10^21. *)
Definition int (z : Z) : number := Number (Z.eqb z 0) (Z.ltb 0 z) (numToString z).

(** [String(v)], as a template literal or [+] on a string applies it.
    [Array.prototype.join] prints [null] and [undefined] items as empty. *)
Fixpoint toString (v : value) : string :=
  match v with
  | VUndefined => "undefined"
  | VNull => "null"
  | VBool true => "true"
  | VBool false => "false"
  | VNum n => numPrinted n
  | VStr s => s
  | VArr items =>
      (fix join (l : list value) : string :=
         match l with
         | [] => ""
         | x :: r =>
             let sx := match x with
                       | VUndefined | VNull => ""
                       | _ => toString x
                       end in
             match r with
             | [] => sx
             | _ => sx ++ "," ++ join r
             end
         end) items
  | VObj _ => "[object Object]"
  end.

#[global] Instance result_ret : MRet result := fun A a => Ok a.

#[global] Instance result_bind : MBind result :=
  fun A B f r => match r with Ok a => f a | Throw e => Throw e end.

(** [ToBoolean]. *)
Definition truthy (v : value) : bool :=
  match v with
  | VUndefined | VNull => false
  | VBool b => b
  | VNum n => negb (numIsZero n)
  | VStr s => negb (String.eqb s "")
  | VArr _ | VObj _ => true
  end.

(** [a || b]. *)
Definition or_else (a b : value) : value := if truthy a then a else b.

(** The binding of [k] in a parsed object: the last one wins. *)
Fixpoint lookupField (k : string) (fields : list (string * value)) : option value :=
  match fields with
  | [] => None
  | (k', v) :: rest =>
      match lookupField k rest with
      | Some w => Some w
      | None => if String.eqb k k' then Some v else None
      end
  end.

(** The TypeError of a property read on [null] or [undefined]. *)
Definition nullReadError (v : value) (k : string) : error :=
  Error "TypeError"
        ("Cannot read properties of " ++ toString v ++ " (reading '" ++ k ++ "')").

(** [v.k] for the data property names the scripts read ([status],
    [message], [length], [patient_id], [full_name], [id_number]). *)
Definition getProp (v : value) (k : string) : result value :=
  match v with
  | VUndefined | VNull => Throw (nullReadError v k)
  | VObj fields => Ok (default VUndefined (lookupField k fields))
  | VArr items =>
      Ok (if String.eqb k "length" then VNum (int (Z.of_nat (length items)))
          else VUndefined)
  | VStr s =>
      Ok (if String.eqb k "length" then VNum (int (Z.of_nat (String.length s)))
          else VUndefined)
  | VBool _ | VNum _ => Ok VUndefined
  end.

(** [a === b] against a string literal. *)
Definition strictEqStr (v : value) (lit : string) : bool :=
  match v with
  | VStr s => String.eqb s lit
  | _ => false
  end.

(** [hay.includes(needle)]. *)
Fixpoint includes (needle hay : string) : bool :=
  String.prefix needle hay
  || match hay with
     | "" => false
     | String _ rest => includes needle rest
     end.

End JS.

(** ** The document: elements in document order, parents by index *)

Module Dom.

(** What an element holds: the children parsed with the page, or what a
    script last assigned through [innerHTML] or [textContent]. *)
Inductive contents :=
| Children
| Html (markup : string)
| Text (text : string).

Record element := Element {
  tag : string;
  parent : option nat;
  idAttr : option string;
  nameAttr : option string;
  classes : list string;
  dataAttrs : list (string * string);  (* the other attributes (data-*, type), by lower-case name *)
  display : option string;       (* style.display *)
  value : option string;         (* the value property; None reads undefined *)
  defaultValue : string;         (* the value attribute, which [reset()] restores *)
  inner : contents
}.

(** [el.getAttribute(name)] on these attributes; the first one counts. *)
Definition getAttribute (name : string) (e : element) : option string :=
  snd <$> List.find (fun kv => String.eqb name (fst kv)) (dataAttrs e).

(** [el.dataset.key] for the attribute [data-key]. *)
Definition dataset (key : string) (e : element) : JS.value :=
  match getAttribute ("data-" ++ key) e with
  | Some s => JS.VStr s
  | None => JS.VUndefined
  end.

(** The elements with a [value] property that [form.reset()] restores. *)
Definition isControl (e : element) : bool :=
  String.eqb (tag e) "input" || String.eqb (tag e) "select"
  || String.eqb (tag e) "textarea".

Definition setDisplay (s : string) (e : element) : element :=
  Element (tag e) (parent e) (idAttr e) (nameAttr e) (classes e) (dataAttrs e)
          (Some s) (value e) (defaultValue e) (inner e).

Definition setValue (s : string) (e : element) : element :=
  Element (tag e) (parent e) (idAttr e) (nameAttr e) (classes e) (dataAttrs e)
          (display e) (Some s) (defaultValue e) (inner e).

Definition lowerAscii (c : ascii) : ascii :=
  let n := nat_of_ascii c in
  if Nat.leb 65 n && Nat.leb n 90 then ascii_of_nat (n + 32) else c.

Fixpoint lower (s : string) : string :=
  match s with
  | "" => ""
  | String c r => String (lowerAscii c) (lower r)
  end.

(** The inputs whose [value] is their value attribute itself: hidden
    inputs, buttons, checkboxes and radio buttons. *)
Definition valueIsAttribute (e : element) : bool :=
  String.eqb (tag e) "input"
  && match getAttribute "type" e with
     | Some t => existsb (String.eqb (lower t))
                   ["hidden"; "submit"; "image"; "reset"; "button"; "checkbox"; "radio"]
     | None => false
     end.

(** The setter of [value] on a control, given a string: on the inputs of
    [valueIsAttribute] it writes the attribute, so that [reset()] restores
    the new value; on the others only the current value changes. *)
Definition writeValue (s : string) (e : element) : element :=
  if valueIsAttribute e
  then Element (tag e) (parent e) (idAttr e) (nameAttr e) (classes e) (dataAttrs e)
               (display e) (Some s) s (inner e)
  else setValue s e.

(** [el.value = v]: a control stores the string of [v]; elsewhere the
    property holds [v] itself, and [undefined] reads back as such.  (The
    setters of file inputs and of selects, which refuse values, are not
    modelled: the script assigns to text and hidden inputs.) *)
Definition assignValue (v : JS.value) (e : element) : element :=
  match v with
  | JS.VUndefined =>
      if isControl e then writeValue "undefined" e
      else Element (tag e) (parent e) (idAttr e) (nameAttr e) (classes e)
                   (dataAttrs e) (display e) None (defaultValue e) (inner e)
  | _ => if isControl e then writeValue (JS.toString v) e
         else setValue (JS.toString v) e
  end.

(** The contents an assignment to [innerHTML] or [textContent] gives an
    element.  The element's former children leave the document with it;
    the model keeps them in the list, and so is a model of the pages in
    which the elements assigned to (the result panel, the name display)
    are containers without element children. *)
Definition setInner (c : contents) (e : element) : element :=
  Element (tag e) (parent e) (idAttr e) (nameAttr e) (classes e) (dataAttrs e)
          (display e) (value e) (defaultValue e) c.

Abbreviation document := (list element).

(** What no listener of the page script changes in an element. *)
Definition skeleton (e : element) :=
  (tag e, parent e, idAttr e, nameAttr e, classes e, dataAttrs e).

(** Two documents with the same elements up to display, value, value
    attribute and contents. *)
Definition sameShape (d d' : document) : Prop :=
  skeleton <$> d' = skeleton <$> d.

Definition hasClassE (cls : string) (e : element) : bool :=
  existsb (String.eqb cls) (classes e).

(** [el.classList.contains(cls)] for the element at index [i]. *)
Definition hasClass (cls : string) (d : document) (i : nat) : bool :=
  match d !! i with
  | Some e => hasClassE cls e
  | None => false
  end.

(** [i], its parent, its grandparent, ... up to the root. *)
Fixpoint chain (fuel : nat) (d : document) (i : nat) : list nat :=
  match fuel with
  | 0 => []
  | S n =>
      match d !! i with
      | None => []
      | Some e =>
          i :: match parent e with
               | None => []
               | Some q => chain n d q
               end
      end
  end.

Definition ancestorsOrSelf (d : document) (i : nat) : list nat :=
  chain (length d) d i.

Definition memb (i : nat) (l : list nat) : bool := existsb (Nat.eqb i) l.

(** [i] is a proper descendant of [m]. *)
Definition isInside (d : document) (m i : nat) : bool :=
  negb (Nat.eqb i m) && memb m (ancestorsOrSelf d i).

(** [el.children.length === 0]: no element of the document is inside [m]. *)
Definition childless (d : document) (m : nat) : bool :=
  forallb (fun j => negb (isInside d m j)) (seq 0 (length d)).

(** [el.closest('.' + cls)]: the element itself or its nearest ancestor. *)
Definition closest (cls : string) (d : document) (i : nat) : option nat :=
  List.find (hasClass cls d) (ancestorsOrSelf d i).

Definition firstIndex (p : nat -> bool) (d : document) : option nat :=
  List.find p (seq 0 (length d)).

(** [document.getElementById(id)]: the first element in document order;
    the empty string names no element. *)
Definition getElementById (id : string) (d : document) : option nat :=
  if String.eqb id "" then None
  else firstIndex (fun i => match d !! i with
                            | Some e => bool_decide (idAttr e = Some id)
                            | None => false
                            end) d.

(** [m.querySelector('form')]: the first form among [m]'s descendants. *)
Definition querySelectorForm (d : document) (m : nat) : option nat :=
  firstIndex (fun i => match d !! i with
                       | Some e => String.eqb (tag e) "form" && isInside d m i
                       | None => false
                       end) d.

(** [document.querySelectorAll(...)] as the list of matching indices. *)
Definition selectAll (p : nat -> bool) (d : document) : list nat :=
  List.filter p (seq 0 (length d)).

(** The controls that belong to form [f]: its descendants. *)
Definition ownedBy (d : document) (f i : nat) : bool :=
  match d !! i with
  | Some e => isControl e && isInside d f i
  | None => false
  end.

(** [form.reset()]: every control of the form back to its default. *)
Definition resetForm (f : nat) (d : document) : document :=
  imap (fun i e => if ownedBy d f i then setValue (defaultValue e) e else e) d.

(** [el.value]. *)
Definition valueOf (d : document) (i : nat) : JS.value :=
  match d !! i ≫= value with
  | Some s => JS.VStr s
  | None => JS.VUndefined
  end.

(** [new FormData(form)]: name and value of the form's named controls,
    in document order: the entry list of a form of text-like inputs,
    hidden inputs, selects and textareas, none of them disabled. *)
Definition formData (d : document) (f : nat) : list (string * string) :=
  omap (fun i => match d !! i with
                 | Some e =>
                     match nameAttr e with
                     | Some n => if ownedBy d f i && negb (String.eqb n "")
                                 then Some (n, default "" (value e)) else None
                     | None => None
                     end
                 | None => None
                 end) (seq 0 (length d)).

End Dom.

(** ** The page script *)

Module Page.
Import Dom.

(** *** Page state *)

Record notification := Notification { className : string; textContent : string }.

(** What a [setTimeout] callback does when it fires. *)
Inductive task :=
| HideNotification (n : notification)
| Reload.

Inductive request :=
| Get (url : string)
| Post (url : string) (body : list (string * string)).

Record logEntry := Log { logLabel : string; logError : option JS.error }.

Record page := Page {
  dom : document;
  notes : list notification;      (* prepended to the body: newest first *)
  timers : list (nat * task);     (* setTimeout calls, newest first *)
  requests : list request;        (* fetch calls, newest first *)
  console : list logEntry         (* console.error calls, newest first *)
}.

Definition withDom (f : document -> document) (p : page) : page :=
  Page (f (dom p)) (notes p) (timers p) (requests p) (console p).

Definition setTimeout (t : task) (delay : nat) (p : page) : page :=
  Page (dom p) (notes p) ((delay, t) :: timers p) (requests p) (console p).

Definition fetch (r : request) (p : page) : page :=
  Page (dom p) (notes p) (timers p) (r :: requests p) (console p).

Definition consoleError (label : string) (e : option JS.error) (p : page) : page :=
  Page (dom p) (notes p) (timers p) (requests p) (Log label e :: console p).

(** How a [fetch] settles: rejected, or a response with its HTTP status
    and what [response.json()] gives. *)
Inductive body :=
| BadJson (e : JS.error)
| Json (data : JS.value).

Inductive outcome :=
| Rejected (e : JS.error)
| Responded (status : Z) (b : body).

(** [response.ok]. *)
Definition responseOk (status : Z) : bool :=
  Z.leb 200 status && Z.leb status 299.

(** *** 1. Notification system *)

Definition showNotification (message type : string) (p : page) : page :=
  let n := Notification ("notification notification-" ++ type) message in
  setTimeout (HideNotification n) 4000
    (Page (dom p) (n :: notes p) (timers p) (requests p) (console p)).

(** *** 2. Modal handler *)

(** A click target: an element of the document, or an element parsed from
    markup a script assigned (a result row), which the state keeps only as
    its panel's markup. *)
Inductive target :=
| InDocument (i : nat)
| InResults (row : element).

Definition targetHasClass (cls : string) (d : document) (t : target) : bool :=
  match t with
  | InDocument i => hasClass cls d i
  | InResults row => hasClassE cls row
  end.

Definition targetDataset (key : string) (d : document) (t : target) : JS.value :=
  match t with
  | InDocument i =>
      match d !! i with
      | Some e => dataset key e
      | None => JS.VUndefined
      end
  | InResults row => dataset key row
  end.

Definition openModal (button : nat) (p : page) : page :=
  match dom p !! button ≫= getAttribute "data-modal-target" with
  | Some modalId =>
      match getElementById modalId (dom p) with
      | Some modal => withDom (alter (setDisplay "block") modal) p
      | None => p
      end
  | None => p
  end.

Definition closeModal (button : nat) (p : page) : page :=
  match closest "modal" (dom p) button with
  | Some modal =>
      let p1 := withDom (alter (setDisplay "none") modal) p in
      match querySelectorForm (dom p1) modal with
      | Some form => withDom (resetForm form) p1
      | None => p1
      end
  | None => p
  end.

(** The window listener: a click whose target carries the class [modal]. *)
Definition windowClick (t : target) (p : page) : page :=
  if targetHasClass "modal" (dom p) t then
    match t with
    | InDocument i => withDom (alter (setDisplay "none") i) p
    | InResults _ => p
    end
  else p.

(** *** 3. Patient search *)

(** The white space [trim] strips, among the code units below 256. *)
Definition isSpace (c : ascii) : bool :=
  existsb (Nat.eqb (nat_of_ascii c)) [9; 10; 11; 12; 13; 32; 160]%nat.

Fixpoint trimStart (s : string) : string :=
  match s with
  | "" => ""
  | String c r => if isSpace c then trimStart r else s
  end.

Definition trim (s : string) : string :=
  String.rev (trimStart (String.rev (trimStart s))).

Definition isUnreserved (c : ascii) : bool :=
  let n := nat_of_ascii c in
  (Nat.leb 65 n && Nat.leb n 90) || (Nat.leb 97 n && Nat.leb n 122)
  || (Nat.leb 48 n && Nat.leb n 57)
  || existsb (Nat.eqb n) [45; 95; 46; 33; 126; 42; 39; 40; 41]%nat.

Definition hexDigit (n : nat) : ascii :=
  nth n (list_ascii_of_string "0123456789ABCDEF") "0"%char.

Definition percent (n : nat) : string :=
  String "%" (String (hexDigit (n / 16)) (String (hexDigit (n mod 16)) "")).

(** One code unit below 256, percent-encoded through UTF-8. *)
Definition encodeUnit (c : ascii) : string :=
  let n := nat_of_ascii c in
  if isUnreserved c then String c ""
  else if Nat.ltb n 128 then percent n
  else percent (192 + n / 64) ++ percent (128 + n mod 64).

Fixpoint encodeURIComponent (s : string) : string :=
  match s with
  | "" => ""
  | String c r => encodeUnit c ++ encodeURIComponent r
  end.

Record wiring := Wiring {
  searchInput : nat;            (* #patient_search_input *)
  resultsPanel : nat;           (* #patient_search_results *)
  idInput : option nat;         (* #patient_id_input *)
  nameDisplay : option nat      (* #patient_name_display *)
}.

(** The lookups of section 3; the listeners exist only with both the
    search input and the result panel. *)
Definition wireSearch (d : document) : option wiring :=
  match getElementById "patient_search_input" d,
        getElementById "patient_search_results" d with
  | Some i, Some r =>
      Some (Wiring i r (getElementById "patient_id_input" d)
                   (getElementById "patient_name_display" d))
  | _, _ => None
  end.

Definition searchUrl (term : string) : string :=
  "/clinic-system/api/handler.php?action=search_patients&term="
  ++ encodeURIComponent term.

(** The [keyup] listener of the search input.  On an element without a
    string [value], [this.value.trim()] throws and the listener ends. *)
Definition keyup (w : wiring) (p : page) : page :=
  match valueOf (dom p) (searchInput w) with
  | JS.VStr v =>
      let searchTerm := trim v in
      if Nat.ltb (String.length searchTerm) 2
      then withDom (alter (setInner (Html "")) (resultsPanel w)) p
      else fetch (Get (searchUrl searchTerm)) p
  | _ => p
  end.

Definition dq : string := String "034"%char "".

(** The markup of one result row, the three fields interpolated as read. *)
Definition rowTemplate (patient_id full_name id_number : JS.value) : string :=
  "<div class=" ++ dq ++ "search-result-item" ++ dq
  ++ " data-id=" ++ dq ++ JS.toString patient_id ++ dq
  ++ " data-name=" ++ dq ++ JS.toString full_name ++ dq ++ ">"
  ++ JS.toString full_name ++ " (" ++ JS.toString id_number ++ ")</div>".

Definition rowMarkup (p : JS.value) : JS.result string :=
  patient_id ← JS.getProp p "patient_id";
  full_name ← JS.getProp p "full_name";
  id_number ← JS.getProp p "id_number";
  mret (rowTemplate patient_id full_name id_number).

(** [data.forEach(p => { html += ... })]. *)
Fixpoint forEachRow (items : list JS.value) (html : string) : JS.result string :=
  match items with
  | [] => mret html
  | p :: rest => row ← rowMarkup p; forEachRow rest (html ++ row)
  end.

Definition noResults : string :=
  "<div class=" ++ dq ++ "search-no-results" ++ dq ++ ">No patients found.</div>".

Definition notAFunction (what : string) : JS.error :=
  JS.Error "TypeError" (what ++ " is not a function").

Section Search.

(** Whether the engine reads a string as a number greater than zero
    ([StringToNumber]); it is consulted only when the [length] of the
    response is itself a string, an array or an object. *)
Variable stringIsPositive : string -> bool.

(** [len > 0]. *)
Definition gtZero (len : JS.value) : bool :=
  match len with
  | JS.VUndefined | JS.VNull => false
  | JS.VBool b => b
  | JS.VNum n => JS.numIsPositive n
  | JS.VStr _ | JS.VArr _ | JS.VObj _ => stringIsPositive (JS.toString len)
  end.

(** The body of the second [then]: the markup for the response. *)
Definition renderResults (data : JS.value) : JS.result string :=
  if JS.truthy data then
    len ← JS.getProp data "length";
    if gtZero len then
      match data with
      | JS.VArr items => forEachRow items ""
      | _ => JS.Throw (notAFunction "data.forEach")
      end
    else mret noResults
  else mret noResults.

(** The promise chain of the search request, run when it settles: the
    body is parsed whatever the status; any error ends in the [catch]. *)
Definition searchSettled (w : wiring) (o : outcome) (p : page) : page :=
  let html :=
    data ← match o with
           | Rejected e => JS.Throw e
           | Responded _ (BadJson e) => JS.Throw e
           | Responded _ (Json data) => JS.Ok data
           end;
    renderResults data in
  match html with
  | JS.Ok h => withDom (alter (setInner (Html h)) (resultsPanel w)) p
  | JS.Throw e => consoleError "Error searching patients:" (Some e) p
  end.

End Search.

Definition missingElements : string :=
  "Missing required elements for patient selection (patient_id_input or patient_name_display)".

(** The [click] listener of the result panel. *)
Definition resultsClick (w : wiring) (t : target) (p : page) : page :=
  if targetHasClass "search-result-item" (dom p) t then
    match idInput w, nameDisplay w with
    | Some patientIdInput, Some patientNameDisplay =>
        let id := targetDataset "id" (dom p) t in
        let name := JS.toString (targetDataset "name" (dom p) t) in
        let p1 := withDom (alter (assignValue id) patientIdInput) p in
        let p2 := withDom (alter (setInner (Text ("Selected: " ++ name)))
                                 patientNameDisplay) p1 in
        let p3 := withDom (alter (assignValue (JS.VStr "")) (searchInput w)) p2 in
        withDom (alter (setInner (Html "")) (resultsPanel w)) p3
    | _, _ => consoleError missingElements None p
    end
  else p.

(** *** 4. AJAX form submission *)

(** What [handleFormSubmission] closes over once the form is found. *)
Record binding := Binding {
  form : nat;
  formId : string;
  successMessage : string;
  failureMessage : string
}.

(** [handleFormSubmission(formId, successMessage, failureMessage)]: no
    listener when the document has no such form. *)
Definition handleFormSubmission (formId successMessage failureMessage : string)
    (d : document) : option binding :=
  f ← getElementById formId d;
  Some (Binding f formId successMessage failureMessage).

Definition endpoint : string := "/clinic-system/api/handler.php".

(** The [submit] listener. *)
Definition submit (b : binding) (p : page) : page :=
  let post := fetch (Post endpoint (formData (dom p) (form b))) p in
  if String.eqb (formId b) "consultationForm"
     || String.eqb (formId b) "appointmentForm" then
    match getElementById "patient_id_input" (dom p) with
    | None => showNotification "Please select a patient first." "error" p
    | Some patientIdInput =>
        if negb (JS.truthy (valueOf (dom p) patientIdInput))
        then showNotification "Please select a patient first." "error" p
        else post
    end
  else post.

Definition httpError (status : Z) : JS.error :=
  JS.Error "Error" ("HTTP error! Status: " ++ JS.numToString status).

(** The first [then]: a response that is not ok throws. *)
Definition checkResponse (o : outcome) : JS.result JS.value :=
  match o with
  | Rejected e => JS.Throw e
  | Responded status b =>
      if responseOk status then
        match b with
        | Json data => JS.Ok data
        | BadJson e => JS.Throw e
        end
      else JS.Throw (httpError status)
  end.

(** The second [then]. *)
Definition handleData (b : binding) (data : JS.value) (p : page) : JS.result page :=
  status ← JS.getProp data "status";
  if JS.strictEqStr status "success" then
    let p1 := showNotification (successMessage b) "success" p in
    let p2 := withDom (resetForm (form b)) p1 in
    let p3 := match closest "modal" (dom p2) (form b) with
              | Some modal => withDom (alter (setDisplay "none") modal) p2
              | None => p2
              end in
    mret (setTimeout Reload 500 p3)
  else
    message ← JS.getProp data "message";
    mret (showNotification
            (failureMessage b ++ ": "
             ++ JS.toString (JS.or_else message (JS.VStr "Unknown error.")))
            "error" p).

(** The promise chain of a submission, run when its request settles. *)
Definition submitSettled (b : binding) (o : outcome) (p : page) : page :=
  match data ← checkResponse o; handleData b data p with
  | JS.Ok p' => p'
  | JS.Throw e =>
      showNotification ("An unexpected error occurred: " ++ JS.errMessage e) "error"
        (consoleError "Submission Error:" (Some e) p)
  end.

(** The four forms the script binds, with their messages. *)
Definition mainForms : list (string * string * string) :=
  [ ("patientForm", "Patient record added successfully!", "Failed to add patient");
    ("consultationForm", "Consultation logged successfully!", "Failed to log consultation");
    ("medicineForm", "Medicine added to inventory successfully!", "Failed to add medicine");
    ("appointmentForm", "Appointment scheduled successfully!", "Failed to schedule appointment") ].

(** *** The listeners registered on [DOMContentLoaded] *)

Record script := Script {
  openModalButtons : list nat;     (* [data-modal-target] *)
  closeModalButtons : list nat;    (* .modal .close-button *)
  search : option wiring;
  bindings : list binding
}.

Definition load (d : document) : script :=
  Script
    (selectAll (fun i => bool_decide
                           (is_Some (d !! i ≫= getAttribute "data-modal-target"))) d)
    (selectAll (fun i => hasClass "close-button" d i
                         && existsb (hasClass "modal" d) (tail (ancestorsOrSelf d i))) d)
    (wireSearch d)
    (omap (fun m => handleFormSubmission m.1.1 m.1.2 m.2 d) mainForms).

(** The listeners of element [j], in registration order. *)
Definition listenersAt (s : script) (t : target) (j : nat) (p : page) : page :=
  let p1 := if memb j (openModalButtons s) then openModal j p else p in
  let p2 := if memb j (closeModalButtons s) then closeModal j p1 else p1 in
  match search s with
  | Some w => if Nat.eqb j (resultsPanel w) then resultsClick w t p2 else p2
  | None => p2
  end.

(** The elements a click bubbles through, target first. *)
Definition eventPath (s : script) (d : document) (t : target) : list nat :=
  match t with
  | InDocument i => ancestorsOrSelf d i
  | InResults _ =>
      match search s with
      | Some w => ancestorsOrSelf d (resultsPanel w)
      | None => []
      end
  end.

(** A click on [t]: the element listeners along the path, then the
    window listener. *)
Definition click (s : script) (t : target) (p : page) : page :=
  windowClick t (fold_left (fun q j => listenersAt s t j q) (eventPath s (dom p) t) p).

(** What happens on the page after load: clicks, key releases in the
    search input, submissions of a form, and the settling of the requests
    these have issued. *)
Inductive event :=
| Click (t : target)
| Keyup
| SearchSettled (o : outcome)
| Submit (form : nat)
| SubmitSettled (form : nat) (o : outcome).

Definition bindingOf (s : script) (f : nat) : option binding :=
  List.find (fun b => Nat.eqb (form b) f) (bindings s).

Definition step (stringIsPositive : string -> bool) (s : script)
    (p : page) (ev : event) : page :=
  match ev with
  | Click t => click s t p
  | Keyup => match search s with Some w => keyup w p | None => p end
  | SearchSettled o =>
      match search s with
      | Some w => searchSettled stringIsPositive w o p
      | None => p
      end
  | Submit f => match bindingOf s f with Some b => submit b p | None => p end
  | SubmitSettled f o =>
      match bindingOf s f with Some b => submitSettled b o p | None => p end
  end.

Definition run (stringIsPositive : string -> bool) (s : script)
    (evs : list event) (p : page) : page :=
  fold_left (step stringIsPositive s) evs p.

(** The outcomes the submission chain takes down its success branch: a
    2xx response whose body parses to a value with [status === 'success']. *)
Definition reportsSuccess (o : outcome) : bool :=
  match o with
  | Responded status (Json data) =>
      responseOk status
      && match JS.getProp data "status" with
         | JS.Ok st => JS.strictEqStr st "success"
         | JS.Throw _ => false
         end
  | _ => false
  end.

(** [f] holds of every code unit of [s]. *)
Fixpoint allChars (f : ascii -> bool) (s : string) : bool :=
  match s with
  | "" => true
  | String c r => f c && allChars f r
  end.

(** The events whose listener may call [fetch]. *)
Definition mayFetch (ev : event) : bool :=
  match ev with
  | Keyup | Submit _ => true
  | _ => false
  end.

End Page.

(** ** The life of one notification element *)

Module Toast.

(** ASCII white space, which separates the names in a [className]. *)
Definition isAsciiSpace (c : ascii) : bool :=
  existsb (Nat.eqb (nat_of_ascii c)) [9; 10; 12; 13; 32]%nat.

Fixpoint split (s cur : string) : list string :=
  match s with
  | "" => if String.eqb cur "" then [] else [cur]
  | String c r =>
      if isAsciiSpace c
      then (if String.eqb cur "" then split r "" else cur :: split r "")
      else split r (cur ++ String c "")
  end.

(** [classList.add(c)]: a token set takes a name once. *)
Definition addClass (c : string) (l : list string) : list string :=
  if existsb (String.eqb c) l then l else (l ++ [c])%list.

(** The [classList] of an element with the given [className]. *)
Definition tokens (className : string) : list string :=
  fold_left (fun acc t => addClass t acc) (split className "") [].

Record toast := Toast_ {
  classList : list string;
  text : string;
  attached : bool;          (* still a child of the body *)
  removers : nat            (* transitionend listeners registered *)
}.

(** The element [showNotification] creates and prepends. *)
Definition create (n : Page.notification) : toast :=
  Toast_ (tokens (Page.className n)) (Page.textContent n) true 0.

Inductive event :=
| Timeout            (* the callback given to [setTimeout] runs *)
| TransitionEnd.     (* a [transitionend] event reaches the element *)

Definition fire (t : toast) (ev : event) : toast :=
  match ev with
  | Timeout =>
      Toast_ (addClass "hide" (classList t)) (text t) (attached t) (S (removers t))
  | TransitionEnd =>
      if Nat.eqb (removers t) 0 then t
      else Toast_ (classList t) (text t) false (removers t)
  end.

Definition run (evs : list event) (t : toast) : toast := fold_left fire evs t.

End Toast.

(** ** How the browser reads the markup assigned to the result panel *)

(** The HTML fragment parser, for the markup this script can produce in a
    [div]: text and [div] elements with attributes.  The functions follow
    the tokenizer states and the "in body" insertion mode of the HTML
    standard; where the input leaves this part of the language (a
    character reference, a comment, an element other than [div], a NUL in
    a name or value) they answer [None]. *)
Module Markup.

Inductive node :=
| TextNode (text : string)
| Elem (attrs : list (string * string)) (children : list node).

Inductive token :=
| Char (c : ascii)
| Start (name : string) (attrs : list (string * string))
| End (name : string).

(** The tag token under construction. *)
Record tag := Tag { tEnd : bool; tName : string; tAttrs : list (string * string) }.

Inductive state :=
| Data
| TagOpen
| EndTagOpen
| TagName (t : tag)
| BeforeAttrName (t : tag)
| AttrName (t : tag) (n : string)
| AfterAttrName (t : tag) (n : string)
| BeforeAttrValue (t : tag) (n : string)
| AttrValueDq (t : tag) (n v : string)
| AttrValueSq (t : tag) (n v : string)
| AttrValueUnq (t : tag) (n v : string)
| AfterAttrValueQ (t : tag)
| SelfClosing (t : tag).

Inductive class :=
| CAmp | CLt | CGt | CSlash | CEq | CDq | CSq | CBang | CQuest | CTick
| CNul | CSpace | CAlpha | COther.

Definition classify (c : ascii) : class :=
  let n := nat_of_ascii c in
  if Nat.eqb n 38 then CAmp else if Nat.eqb n 60 then CLt
  else if Nat.eqb n 62 then CGt else if Nat.eqb n 47 then CSlash
  else if Nat.eqb n 61 then CEq else if Nat.eqb n 34 then CDq
  else if Nat.eqb n 39 then CSq else if Nat.eqb n 33 then CBang
  else if Nat.eqb n 63 then CQuest else if Nat.eqb n 96 then CTick
  else if Nat.eqb n 0 then CNul
  else if existsb (Nat.eqb n) [9; 10; 12; 32]%nat then CSpace
  else if (Nat.leb 65 n && Nat.leb n 90) || (Nat.leb 97 n && Nat.leb n 122) then CAlpha
  else COther.

Definition snoc (s : string) (c : ascii) : string := s ++ String c "".

Definition addAttr (t : tag) (n v : string) : tag :=
  Tag (tEnd t) (tName t) (tAttrs t ++ [(n, v)])%list.

Definition named (t : tag) (c : ascii) : tag :=
  Tag (tEnd t) (snoc (tName t) (Dom.lowerAscii c)) (tAttrs t).

(** Of two attributes with one name the tokenizer keeps the first. *)
Fixpoint dedupe (seen : list string) (l : list (string * string))
    : list (string * string) :=
  match l with
  | [] => []
  | (k, v) :: r =>
      if existsb (String.eqb k) seen then dedupe seen r
      else (k, v) :: dedupe (k :: seen) r
  end.

Definition emit (t : tag) : list token :=
  if tEnd t then [End (tName t)] else [Start (tName t) (dedupe [] (tAttrs t))].

(** The attribute name state on [c], with the name [n] so far. *)
Definition attrName (t : tag) (n : string) (c : ascii) : option (state * list token) :=
  match classify c with
  | CSpace => Some (AfterAttrName t n, [])
  | CSlash => Some (SelfClosing (addAttr t n ""), [])
  | CGt => Some (Data, emit (addAttr t n ""))
  | CEq => Some (BeforeAttrValue t n, [])
  | CNul => None
  | _ => Some (AttrName t (snoc n (Dom.lowerAscii c)), [])
  end.

(** The before attribute name state on [c]. *)
Definition beforeAttrName (t : tag) (c : ascii) : option (state * list token) :=
  match classify c with
  | CSpace => Some (BeforeAttrName t, [])
  | CSlash => Some (SelfClosing t, [])
  | CGt => Some (Data, emit t)
  | CEq => Some (AttrName t (String c ""), [])
  | _ => attrName t "" c
  end.

(** One code unit in one state: the next state and the tokens emitted. *)
Definition step (st : state) (c : ascii) : option (state * list token) :=
  match st with
  | Data =>
      match classify c with
      | CAmp => None
      | CLt => Some (TagOpen, [])
      | _ => Some (Data, [Char c])
      end
  | TagOpen =>
      match classify c with
      | CBang | CQuest => None
      | CSlash => Some (EndTagOpen, [])
      | CAlpha => Some (TagName (named (Tag false "" []) c), [])
      | CAmp => None
      | CLt => Some (TagOpen, [Char "<"])
      | _ => Some (Data, [Char "<"; Char c])
      end
  | EndTagOpen =>
      match classify c with
      | CAlpha => Some (TagName (named (Tag true "" []) c), [])
      | CGt => Some (Data, [])
      | _ => None
      end
  | TagName t =>
      match classify c with
      | CSpace => Some (BeforeAttrName t, [])
      | CSlash => Some (SelfClosing t, [])
      | CGt => Some (Data, emit t)
      | CNul => None
      | _ => Some (TagName (named t c), [])
      end
  | BeforeAttrName t => beforeAttrName t c
  | AttrName t n => attrName t n c
  | AfterAttrName t n =>
      match classify c with
      | CSpace => Some (AfterAttrName t n, [])
      | CSlash => Some (SelfClosing (addAttr t n ""), [])
      | CEq => Some (BeforeAttrValue t n, [])
      | CGt => Some (Data, emit (addAttr t n ""))
      | _ => attrName (addAttr t n "") "" c
      end
  | BeforeAttrValue t n =>
      match classify c with
      | CSpace => Some (BeforeAttrValue t n, [])
      | CDq => Some (AttrValueDq t n "", [])
      | CSq => Some (AttrValueSq t n "", [])
      | CGt => Some (Data, emit (addAttr t n ""))
      | CAmp | CNul => None
      | _ => Some (AttrValueUnq t n (String c ""), [])
      end
  | AttrValueDq t n v =>
      match classify c with
      | CDq => Some (AfterAttrValueQ (addAttr t n v), [])
      | CAmp | CNul => None
      | _ => Some (AttrValueDq t n (snoc v c), [])
      end
  | AttrValueSq t n v =>
      match classify c with
      | CSq => Some (AfterAttrValueQ (addAttr t n v), [])
      | CAmp | CNul => None
      | _ => Some (AttrValueSq t n (snoc v c), [])
      end
  | AttrValueUnq t n v =>
      match classify c with
      | CSpace => Some (BeforeAttrName (addAttr t n v), [])
      | CGt => Some (Data, emit (addAttr t n v))
      | CAmp | CNul => None
      | _ => Some (AttrValueUnq t n (snoc v c), [])
      end
  | AfterAttrValueQ t =>
      match classify c with
      | CSpace => Some (BeforeAttrName t, [])
      | CSlash => Some (SelfClosing t, [])
      | CGt => Some (Data, emit t)
      | _ => beforeAttrName t c
      end
  | SelfClosing t =>
      match classify c with
      | CGt => Some (Data, emit t)
      | _ => beforeAttrName t c
      end
  end.

(** What the end of the input emits: a tag left open is dropped. *)
Definition atEnd (st : state) : list token :=
  match st with
  | TagOpen => [Char "<"]
  | EndTagOpen => [Char "<"; Char "/"]
  | _ => []
  end.

(** An open element: its attributes, its children so far (latest first)
    and the text after the last of them. *)
Record frame := Frame {
  fAttrs : list (string * string);
  fKids : list node;
  fText : string
}.

(** The open [div]s, innermost first, and the context element's own frame. *)
Record builder := Builder { opened : list frame; root : frame }.

Definition kids (f : frame) : list node :=
  if String.eqb (fText f) "" then fKids f else TextNode (fText f) :: fKids f.

Definition addChar (c : ascii) (f : frame) : frame :=
  Frame (fAttrs f) (fKids f) (snoc (fText f) c).

Definition addText (t : string) (f : frame) : frame :=
  Frame (fAttrs f) (fKids f) (fText f ++ t).

Definition addNode (n : node) (f : frame) : frame :=
  Frame (fAttrs f) (n :: kids f) "".

Definition onCurrent (g : frame -> frame) (b : builder) : builder :=
  match opened b with
  | f :: rest => Builder (g f :: rest) (root b)
  | [] => Builder [] (g (root b))
  end.

(** The end tag of a [div]: ignored when none is open. *)
Definition closeDiv (b : builder) : builder :=
  match opened b with
  | f :: rest =>
      onCurrent (addNode (Elem (fAttrs f) (rev (kids f)))) (Builder rest (root b))
  | [] => b
  end.

Definition feed1 (t : token) (b : builder) : option builder :=
  match t with
  | Char c =>
      if Nat.eqb (nat_of_ascii c) 0 then Some b else Some (onCurrent (addChar c) b)
  | Start name attrs =>
      if String.eqb name "div"
      then Some (Builder (Frame attrs [] "" :: opened b) (root b))
      else None
  | End name => if String.eqb name "div" then Some (closeDiv b) else None
  end.

Fixpoint feed (ts : list token) (b : builder) : option builder :=
  match ts with
  | [] => Some b
  | t :: r => match feed1 t b with Some b' => feed r b' | None => None end
  end.

(** At the end of the input every open element is closed. *)
Fixpoint closeAll (n : nat) (b : builder) : builder :=
  match n with
  | 0 => b
  | S m => closeAll m (closeDiv b)
  end.

Definition finish (st : state) (b : builder) : option (list node) :=
  match feed (atEnd st) b with
  | Some b' => Some (rev (kids (root (closeAll (length (opened b')) b'))))
  | None => None
  end.

Fixpoint parse (st : state) (b : builder) (s : string) : option (list node) :=
  match s with
  | "" => finish st b
  | String c r =>
      match step st c with
      | Some (st', ts) =>
          match feed ts b with
          | Some b' => parse st' b' r
          | None => None
          end
      | None => None
      end
  end.

(** The input stream has its newlines normalized: CR LF and CR become LF. *)
Fixpoint normalize (s : string) : string :=
  match s with
  | "" => ""
  | String c r =>
      if Nat.eqb (nat_of_ascii c) 13 then
        match r with
        | String c' r' =>
            if Nat.eqb (nat_of_ascii c') 10 then normalize r
            else String "010" (normalize r)
        | "" => String "010" ""
        end
      else String c (normalize r)
  end.

(** The children [el.innerHTML = markup] gives an element with tag name
    [context]; the model covers the context [div]. *)
Definition rendered (context markup : string) : option (list node) :=
  if String.eqb context "div"
  then parse Data (Builder [] (Frame [] [] "")) (normalize markup)
  else None.

Definition attribute (name : string) (attrs : list (string * string)) : option string :=
  snd <$> List.find (fun kv => String.eqb name (fst kv)) attrs.

(** A parsed [div] as a click target of the page: its class list and its
    attributes. *)
Definition asElement (attrs : list (string * string)) : Dom.element :=
  Dom.Element "div" None
    (match attribute "id" attrs with
     | Some i => if String.eqb i "" then None else Some i
     | None => None
     end)
    (attribute "name" attrs)
    (Toast.tokens (default "" (attribute "class" attrs)))
    attrs None None "" Dom.Children.

(** The characters that stand for themselves both in a double-quoted
    attribute value and in text: all but NUL, CR, the double quote, [&]
    and [<]. *)
Definition plainChar (c : ascii) : bool :=
  negb (existsb (Nat.eqb (nat_of_ascii c)) [0; 13; 34; 38; 60]%nat).

Definition plain (s : string) : bool := Page.allChars plainChar s.

Definition noCR (c : ascii) : bool := negb (Nat.eqb (nat_of_ascii c) 13).

(** [p.key] of a parsed record, as the template prints it. *)
Definition printed (key : string) (fields : list (string * JS.value)) : string :=
  JS.toString (default JS.VUndefined (JS.lookupField key fields)).

(** The three fields of the record print in plain characters. *)
Definition plainRecord (fields : list (string * JS.value)) : bool :=
  plain (printed "patient_id" fields) && plain (printed "full_name" fields)
  && plain (printed "id_number" fields).

(** The [div] the template of a result row stands for. *)
Definition rowNode (patient_id full_name id_number : string) : node :=
  Elem [("class", "search-result-item"); ("data-id", patient_id);
        ("data-name", full_name)]
       [TextNode (full_name ++ " (" ++ id_number ++ ")")].

Definition nodeOf (fields : list (string * JS.value)) : node :=
  rowNode (printed "patient_id" fields) (printed "full_name" fields)
          (printed "id_number" fields).

End Markup.

(** ** firebase_app.js *)

Module Firebase.

(** The values injected as globals before the module runs; [None] when
    [typeof] gives ['undefined'].  [JSON.parse] is the engine's: the
    configuration comes as its outcome. *)
Record globals := Globals {
  g_app_id : option JS.value;                           (* __app_id *)
  g_firebase_config : option (JS.result JS.value);      (* JSON.parse(__firebase_config) *)
  g_initial_auth_token : option JS.value                (* __initial_auth_token *)
}.

Inductive level := LError | LWarn | LLog.

(** The second argument of a console call, when there is one. *)
Inductive arg :=
| NoArg
| ErrArg (e : JS.error)
| StrArg (s : string).

Record line := Line { lvl : level; text : string; detail : arg }.

(** [JSON.parse] of a text with no value in it, such as the empty text:
    the engine throws. *)
Definition parseNothing : JS.result JS.value :=
  JS.Throw (JS.Error "SyntaxError" "Unexpected end of JSON input").

(** The SDK: opaque handles, and calls that return or throw (an awaited
    promise that rejects throws at the [await]). *)
Record SDK := Sdk {
  handle : Type;
  initializeApp : JS.value -> JS.result handle;
  getFirestore : handle -> JS.result handle;
  getAuth : handle -> JS.result handle;
  signInWithCustomToken : handle -> JS.value -> JS.result unit;
  signInAnonymously : handle -> JS.result unit;
  onAuthStateChanged : handle -> JS.result unit;
  (* [collection], [query] and [onSnapshot] on a path, as one call *)
  onSnapshot : handle -> string -> JS.result unit
}.

(** One document of a snapshot: [doc.id] and the fields of [doc.data()]. *)
Record snapshotDoc := SnapshotDoc { docId : string; docData : list (string * JS.value) }.

(** [{ id: doc.id, ...data }]: a field of the data named [id] is written
    after [doc.id] and replaces it. *)
Definition itemOf (doc : snapshotDoc) : JS.value :=
  JS.VObj (("id", JS.VStr (docId doc)) :: docData doc).

(** The success callback of [onSnapshot]: the array it builds and prints.
    Spreading an object does not throw, so the [catch] around the [push]
    is never entered. *)
Definition snapshotItems (docs : list snapshotDoc) : list JS.value :=
  fold_left (fun items doc => (items ++ [itemOf doc])%list) docs [].

Section Module_.

Variable sdk : SDK.

(** The module-level variables, with what the module has printed, whether
    the auth observer is registered, and the subscriptions opened. *)
Record state := State {
  app : option (handle sdk);
  db : option (handle sdk);
  auth : option (handle sdk);
  userId : option string;
  isAuthReady : bool;
  observer : bool;
  subscriptions : list string;
  console : list line
}.

Definition initial : state := State None None None None false false [] [].

Definition print (l : level) (t : string) (e : arg) (s : state) : state :=
  State (app s) (db s) (auth s) (userId s) (isAuthReady s) (observer s)
        (subscriptions s) (Line l t e :: console s).

(** Statements of an [async] body: they change the state and may throw. *)
Definition M (A : Type) : Type := state -> state * JS.result A.

Definition ret {A} (a : A) : M A := fun s => (s, JS.Ok a).

Definition bind {A B} (m : M A) (k : A -> M B) : M B :=
  fun s => match m s with
           | (s', JS.Ok a) => k a s'
           | (s', JS.Throw e) => (s', JS.Throw e)
           end.

Definition call {A} (r : JS.result A) : M A := fun s => (s, r).

Definition modify (f : state -> state) : M unit := fun s => (f s, JS.Ok tt).

(** [try { body } catch (error) { handler }], run to its final state. *)
Definition tryCatch (body : M unit) (handler : JS.error -> state -> state)
    (s : state) : state :=
  match body s with
  | (s', JS.Ok _) => s'
  | (s', JS.Throw e) => handler e s'
  end.

#[local] Instance M_ret : MRet M := @ret.
#[local] Instance M_bind : MBind M := fun A B k m => bind m k.

Definition setApp (h : handle sdk) (s : state) : state :=
  State (Some h) (db s) (auth s) (userId s) (isAuthReady s) (observer s)
        (subscriptions s) (console s).
Definition setDb (h : handle sdk) (s : state) : state :=
  State (app s) (Some h) (auth s) (userId s) (isAuthReady s) (observer s)
        (subscriptions s) (console s).
Definition setAuth (h : handle sdk) (s : state) : state :=
  State (app s) (db s) (Some h) (userId s) (isAuthReady s) (observer s)
        (subscriptions s) (console s).
Definition setObserver (s : state) : state :=
  State (app s) (db s) (auth s) (userId s) (isAuthReady s) true
        (subscriptions s) (console s).

(** [Object.keys(v).length]. *)
Definition keyCount (v : JS.value) : JS.result nat :=
  match v with
  | JS.VUndefined | JS.VNull =>
      JS.Throw (JS.Error "TypeError" "Cannot convert undefined or null to object")
  | JS.VBool _ | JS.VNum _ => JS.Ok 0
  | JS.VStr s => JS.Ok (String.length s)
  | JS.VArr items => JS.Ok (length items)
  | JS.VObj fields => JS.Ok (length (nodup string_dec (map fst fields)))
  end.

(** The constants of the module's top level. *)
Definition appId (g : globals) : JS.value :=
  default (JS.VStr "default-app-id") (g_app_id g).

Definition firebaseConfig (g : globals) : JS.result JS.value :=
  default (JS.Ok (JS.VObj [])) (g_firebase_config g).

Definition initialAuthToken (g : globals) : JS.value :=
  default JS.VNull (g_initial_auth_token g).

Definition initializeFirebase (config token : JS.value) : state -> state :=
  tryCatch
    (n ← call (keyCount config);
     if Nat.eqb n 0 then
       modify (print LError "Firebase configuration is missing or empty." NoArg)
     else
       a ← call (initializeApp sdk config); modify (setApp a);;
       d ← call (getFirestore sdk a); modify (setDb d);;
       au ← call (getAuth sdk a); modify (setAuth au);;
       (if JS.truthy token then
          modify (print LLog "Signing in with custom token..." NoArg);;
          call (signInWithCustomToken sdk au token)
        else
          modify (print LLog "Signing in anonymously..." NoArg);;
          call (signInAnonymously sdk au));;
       call (onAuthStateChanged sdk au);;
       modify setObserver)
    (fun e => print LError "Firebase initialization failed:" (ErrArg e)).

(** The observer passed to [onAuthStateChanged]: [user] is the uid of the
    user object or [None] for [null]; [uuid] is what [crypto.randomUUID()]
    returns at that moment. *)
Definition authStateChanged (user : option string) (uuid : string) (s : state) : state :=
  let s1 :=
    match user with
    | Some uid =>
        print LLog "User authenticated. UID:" (StrArg uid)
          (State (app s) (db s) (auth s) (Some uid) (isAuthReady s) (observer s)
                 (subscriptions s) (console s))
    | None =>
        print LWarn "Authentication failed or user logged out. Using anonymous UUID:"
          (StrArg uuid)
          (State (app s) (db s) (auth s) (Some uuid) (isAuthReady s) (observer s)
                 (subscriptions s) (console s))
    end in
  State (app s1) (db s1) (auth s1) (userId s1) true (observer s1)
        (subscriptions s1) (console s1).

Definition collectionPath (appId : JS.value) (uid : string) : string :=
  "/artifacts/" ++ JS.toString appId ++ "/users/" ++ uid ++ "/" ++ "your_items".

(** [fetchRealtimeData()]; an error thrown by the SDK leaves the function
    with no subscription. *)
Definition fetchRealtimeData (appId : JS.value) (s : state) : state :=
  match isAuthReady s, db s, userId s with
  | true, Some d, Some (String c r as uid) =>
      let path := collectionPath appId uid in
      let s1 := print LLog "Listening to collection:" (StrArg path) s in
      match onSnapshot sdk d path with
      | JS.Ok _ =>
          State (app s1) (db s1) (auth s1) (userId s1) (isAuthReady s1) (observer s1)
                (path :: subscriptions s1) (console s1)
      | JS.Throw _ => s1
      end
  | _, _, _ => print LError "Cannot fetch data: Firebase or Auth not ready." NoArg s
  end.

(** What can happen after the module has run: the SDK calls the observer
    (if one was registered), or an importer calls [fetchRealtimeData]. *)
Inductive event :=
| AuthStateChanged (user : option string) (uuid : string)
| FetchRealtimeData.

Definition step (appId : JS.value) (s : state) (e : event) : state :=
  match e with
  | AuthStateChanged user uuid =>
      if observer s then authStateChanged user uuid s else s
  | FetchRealtimeData => fetchRealtimeData appId s
  end.

Definition run (appId : JS.value) (es : list event) (s : state) : state :=
  fold_left (step appId) es s.

(** The calls of [fetchRealtimeData] among the events. *)
Definition fetches (es : list event) : nat :=
  length (List.filter (fun e => match e with
                                | FetchRealtimeData => true
                                | AuthStateChanged _ _ => false
                                end) es).

(** No handle, no user, not ready, no observer, no subscription. *)
Definition inert (s : state) : Prop :=
  app s = None /\ db s = None /\ auth s = None /\ userId s = None
  /\ isAuthReady s = false /\ observer s = false /\ subscriptions s = [].

(** The module's top level: the constants, then [initializeFirebase()].
    An error from [JSON.parse] ends the module before anything is set. *)
Definition loadModule (g : globals) : JS.result state :=
  config ← firebaseConfig g;
  mret (initializeFirebase config (initialAuthToken g) initial).

End Module_.

End Firebase.

(** ** A sample page and sample responses *)

Module Samples.
Import Dom Page.

Definition el (tag : string) (parent : option nat) (id : option string)
    (name : option string) (classes : list string) (value : option string) : element :=
  Element tag parent id name classes [] None value "" Children.

(** A consultation form in an open modal, with the patient search, a
    button opening the modal, and a patient form outside any modal. *)
Definition doc : document :=
  [ Element "div" None (Some "consultModal") None ["modal"] [] (Some "block") None "" Children;
    el "div" (Some 0) None None ["modal-content"] None;
    el "span" (Some 1) None None ["close-button"] None;
    el "form" (Some 1) (Some "consultationForm") None [] None;
    el "input" (Some 3) (Some "patient_search_input") None [] (Some " a ");
    el "div" (Some 3) (Some "patient_search_results") None [] None;
    el "input" (Some 3) (Some "patient_id_input") (Some "patient_id") [] (Some "");
    el "span" (Some 3) (Some "patient_name_display") None [] None;
    el "textarea" (Some 3) None (Some "notes") [] (Some "cough");
    Element "button" None None None [] [("data-modal-target", "consultModal")]
            None None "" Children;
    el "form" None (Some "patientForm") None [] None;
    el "input" (Some 10) None (Some "full_name") [] (Some "Ann") ].

Definition page0 : page := Page doc [] [] [] [].

(** The sample page with its modal closed. *)
Definition hidden : page := Page (alter (setDisplay "none") 0 doc) [] [] [] [].

Definition theScript : script := load doc.

Definition consultation : binding :=
  Binding 3 "consultationForm" "Consultation logged successfully!"
          "Failed to log consultation".

Definition patient : binding :=
  Binding 10 "patientForm" "Patient record added successfully!" "Failed to add patient".

Definition theWiring : wiring := Wiring 4 5 (Some 6) (Some 7).

Definition success : JS.value := JS.VObj [("status", JS.VStr "success")].

Definition duplicate : JS.value :=
  JS.VObj [("status", JS.VStr "duplicate"); ("message", JS.VStr "ID exists")].

Definition rejected : JS.value := JS.VObj [("status", JS.VStr "error")].

Definition networkError : JS.error := JS.Error "TypeError" "Failed to fetch".

Definition ann : JS.value :=
  JS.VObj [("patient_id", JS.VNum (JS.int 7)); ("full_name", JS.VStr "Ann Lee");
           ("id_number", JS.VStr "P-0007")].

Definition bob : JS.value :=
  JS.VObj [("patient_id", JS.VNum (JS.int 12)); ("full_name", JS.VStr "Bob Cruz");
           ("id_number", JS.VStr "P-0012")].

(** The row rendered for [ann], as the click listener receives it. *)
Definition annRow : element :=
  Element "div" None None None ["search-result-item"]
          [("data-id", "7"); ("data-name", "Ann Lee")] None None "" Children.

(** An SDK in which every call succeeds. *)
Definition okSdk : Firebase.SDK :=
  Firebase.Sdk unit (fun _ => JS.Ok tt) (fun _ => JS.Ok tt) (fun _ => JS.Ok tt)
               (fun _ _ => JS.Ok tt) (fun _ => JS.Ok tt) (fun _ => JS.Ok tt)
               (fun _ _ => JS.Ok tt).

Definition noGlobals : Firebase.globals := Firebase.Globals None None None.

(** The configuration injected as the empty text. *)
Definition emptyBlob : Firebase.globals :=
  Firebase.Globals None (Some Firebase.parseNothing) None.

Definition config : JS.value := JS.VObj [("apiKey", JS.VStr "k")].

Definition authError : JS.error :=
  JS.Error "FirebaseError" "auth/network-request-failed".

(** An SDK in which signing in fails, with or without a token. *)
Definition offlineSdk : Firebase.SDK :=
  Firebase.Sdk unit (fun _ => JS.Ok tt) (fun _ => JS.Ok tt) (fun _ => JS.Ok tt)
               (fun _ _ => JS.Throw authError) (fun _ => JS.Throw authError)
               (fun _ => JS.Ok tt) (fun _ _ => JS.Ok tt).

(** A name with double quotes in it. *)
Definition annieName : string :=
  "Ann " ++ Page.dq ++ "Annie" ++ Page.dq ++ " Lee".

Definition annie : JS.value :=
  JS.VObj [("patient_id", JS.VNum (JS.int 7)); ("full_name", JS.VStr annieName);
           ("id_number", JS.VStr "P-0007")].

(** A name that closes the row and opens another. *)
Definition splitter : JS.value :=
  JS.VObj [("patient_id", JS.VNum (JS.int 8));
           ("full_name", JS.VStr "</div><div class=search-result-item>");
           ("id_number", JS.VStr "P-0008")].

Definition docs : list Firebase.snapshotDoc :=
  [ Firebase.SnapshotDoc "a1" [("name", JS.VStr "gauze")];
    Firebase.SnapshotDoc "a2" [("id", JS.VNum (JS.int 9)); ("name", JS.VStr "tape")] ].

End Samples.

(** * Properties *)

(** ** The document operations depend on the shape only *)

Module DomFacts.
Import Dom.

Lemma sameShape_refl d : sameShape d d.
Proof. reflexivity. Qed.

Lemma sameShape_trans d1 d2 d3 :
  sameShape d1 d2 -> sameShape d2 d3 -> sameShape d1 d3.
Proof. unfold sameShape. congruence. Qed.

Lemma sameShape_length d d' : sameShape d d' -> length d' = length d.
Proof.
  intros H. apply (f_equal length) in H. by rewrite !length_fmap in H.
Qed.

Lemma sameShape_lookup d d' i :
  sameShape d d' -> skeleton <$> d' !! i = skeleton <$> d !! i.
Proof.
  unfold sameShape. intros H.
  rewrite <- (list_lookup_fmap skeleton d'), <- (list_lookup_fmap skeleton d).
  by rewrite H.
Qed.

Lemma sameShape_alter (f : element -> element) i d :
  (forall e, skeleton (f e) = skeleton e) -> sameShape d (alter f i d).
Proof.
  intros Hf. unfold sameShape. apply list_eq. intros j.
  rewrite !list_lookup_fmap, list_lookup_alter.
  case_decide; [subst|done].
  destruct (d !! j); simpl; [by rewrite Hf|done].
Qed.

Lemma sameShape_imap (g : nat -> element -> element) d :
  (forall i e, skeleton (g i e) = skeleton e) -> sameShape d (imap g d).
Proof.
  intros Hg. unfold sameShape. apply list_eq. intros j.
  rewrite !list_lookup_fmap, list_lookup_imap.
  destruct (d !! j); simpl; [by rewrite Hg|done].
Qed.

Lemma skeleton_setDisplay s e : skeleton (setDisplay s e) = skeleton e.
Proof. reflexivity. Qed.

Lemma skeleton_setValue s e : skeleton (setValue s e) = skeleton e.
Proof. reflexivity. Qed.

Lemma skeleton_setInner c e : skeleton (setInner c e) = skeleton e.
Proof. reflexivity. Qed.

Lemma skeleton_writeValue t e : skeleton (writeValue t e) = skeleton e.
Proof. unfold writeValue. by destruct (valueIsAttribute e). Qed.

Lemma skeleton_assignValue v e : skeleton (assignValue v e) = skeleton e.
Proof.
  destruct v; simpl; destruct (isControl e);
    auto using skeleton_writeValue.
Qed.

(** Whatever the element, assigning a string leaves that string as its
    value. *)
Lemma value_assignValue t e : value (assignValue (JS.VStr t) e) = Some t.
Proof.
  simpl. destruct (isControl e); [|done].
  unfold writeValue. by destruct (valueIsAttribute e).
Qed.

Lemma inner_assignValue v e : inner (assignValue v e) = inner e.
Proof.
  destruct v; simpl; destruct (isControl e); try done;
    unfold writeValue; by destruct (valueIsAttribute e).
Qed.

Lemma sameShape_resetForm f d : sameShape d (resetForm f d).
Proof.
  apply sameShape_imap. intros i e. by destruct (ownedBy d f i).
Qed.

Create HintDb shape.

#[export] Hint Resolve sameShape_refl sameShape_alter sameShape_resetForm
  skeleton_setDisplay skeleton_setValue skeleton_setInner skeleton_assignValue : shape.

(** Rewrite with the components of a skeleton equation. *)
Ltac by_skeleton H :=
  unfold skeleton in H; injection H; intros;
  repeat match goal with
         | E : ?f _ = ?f _ |- _ => rewrite ?E; clear E
         end;
  done.

Section Shape.

Variables d d' : document.
Hypothesis Hs : sameShape d d'.

(** Corresponding elements exist together and agree on the skeleton. *)
Lemma shape_cases i :
  (d !! i = None /\ d' !! i = None)
  \/ (exists e e', d !! i = Some e /\ d' !! i = Some e' /\ skeleton e' = skeleton e).
Proof.
  pose proof (sameShape_lookup d d' i Hs) as H.
  destruct (d !! i) as [e|], (d' !! i) as [e'|]; simpl in H; try discriminate.
  - right. exists e, e'. repeat split. congruence.
  - by left.
Qed.

Lemma chain_shape n i : chain n d' i = chain n d i.
Proof.
  revert i. induction n as [|n IH]; intros i; simpl; [done|].
  destruct (shape_cases i) as [[-> ->]|(e & e' & -> & -> & He)]; [done|].
  assert (parent e' = parent e) as -> by (unfold skeleton in He; congruence).
  destruct (parent e); [by rewrite IH|done].
Qed.

Lemma ancestorsOrSelf_shape i : ancestorsOrSelf d' i = ancestorsOrSelf d i.
Proof.
  unfold ancestorsOrSelf. by rewrite (sameShape_length d d' Hs), chain_shape.
Qed.

Lemma hasClass_shape cls i : hasClass cls d' i = hasClass cls d i.
Proof.
  unfold hasClass, hasClassE.
  destruct (shape_cases i) as [[-> ->]|(e & e' & -> & -> & He)]; [done|].
  by_skeleton He.
Qed.

Lemma isInside_shape m i : isInside d' m i = isInside d m i.
Proof. unfold isInside. by rewrite ancestorsOrSelf_shape. Qed.

Lemma ownedBy_shape f i : ownedBy d' f i = ownedBy d f i.
Proof.
  unfold ownedBy. rewrite isInside_shape.
  destruct (shape_cases i) as [[-> ->]|(e & e' & -> & -> & He)]; [done|].
  unfold isControl. by_skeleton He.
Qed.

Lemma closest_shape cls i : closest cls d' i = closest cls d i.
Proof.
  unfold closest. rewrite ancestorsOrSelf_shape.
  induction (ancestorsOrSelf d i) as [|j l IH]; simpl; [done|].
  by rewrite hasClass_shape, IH.
Qed.

Lemma firstIndex_shape (q q' : nat -> bool) :
  (forall i, q' i = q i) -> firstIndex q' d' = firstIndex q d.
Proof.
  intros Hq. unfold firstIndex. rewrite (sameShape_length d d' Hs).
  induction (seq 0 (length d)) as [|j l IH]; simpl; [done|].
  by rewrite Hq, IH.
Qed.

Lemma getElementById_shape id : getElementById id d' = getElementById id d.
Proof.
  unfold getElementById. destruct (String.eqb id ""); [done|].
  apply firstIndex_shape. intros i.
  destruct (shape_cases i) as [[-> ->]|(e & e' & -> & -> & He)]; [done|].
  by_skeleton He.
Qed.

Lemma querySelectorForm_shape m : querySelectorForm d' m = querySelectorForm d m.
Proof.
  unfold querySelectorForm. apply firstIndex_shape. intros i.
  rewrite isInside_shape.
  destruct (shape_cases i) as [[-> ->]|(e & e' & -> & -> & He)]; [done|].
  by_skeleton He.
Qed.

End Shape.

(** Every index on a chain is an element of the document. *)
Lemma chain_lookup n d i j : In j (chain n d i) -> is_Some (d !! j).
Proof.
  revert i. induction n as [|n IH]; intros i; simpl; [done|].
  destruct (d !! i) as [e|] eqn:He; [|done].
  intros [<-|Hj]; [eauto|].
  destruct (parent e); [eauto|done].
Qed.

Lemma closest_lookup cls d i m : closest cls d i = Some m -> is_Some (d !! m).
Proof.
  unfold closest. intros H. apply find_some in H as [H _].
  by eapply chain_lookup.
Qed.

(** The first element with an id has that id: two ids, two elements. *)
Lemma getElementById_idAttr id d i :
  getElementById id d = Some i -> exists e, d !! i = Some e /\ idAttr e = Some id.
Proof.
  unfold getElementById, firstIndex. destruct (String.eqb id ""); [done|].
  intros H. apply find_some in H as [_ H].
  destruct (d !! i) as [e|]; [|done].
  apply bool_decide_eq_true in H. eauto.
Qed.

Lemma getElementById_inj id1 id2 d i :
  getElementById id1 d = Some i -> getElementById id2 d = Some i -> id1 = id2.
Proof.
  intros (e1 & H1 & Hi1)%getElementById_idAttr (e2 & H2 & Hi2)%getElementById_idAttr.
  congruence.
Qed.

(** After [form.reset()] and the modal's hiding, the form's controls hold
    their defaults. *)
Lemma reset_then_hide f (d : document) (om : option nat) i e :
  let d' := match om with
            | Some m => alter (setDisplay "none") m (resetForm f d)
            | None => resetForm f d
            end in
  d' !! i = Some e -> ownedBy d' f i = true -> value e = Some (defaultValue e).
Proof.
  intros d' He Hown.
  assert (sameShape d d') as Hs.
  { subst d'. destruct om; [|auto with shape].
    eapply sameShape_trans; [apply sameShape_resetForm|auto with shape]. }
  rewrite (ownedBy_shape d d' Hs) in Hown.
  assert (exists e1, resetForm f d !! i = Some e1
                     /\ value e = value e1 /\ defaultValue e = defaultValue e1)
    as (e1 & He1 & -> & ->).
  { subst d'. destruct om as [m|]; [|eauto].
    rewrite list_lookup_alter in He. case_decide; [subst|eauto].
    destruct (resetForm f d !! i) as [e1|]; simplify_eq/=. eauto. }
  unfold resetForm in He1. rewrite list_lookup_imap in He1.
  destruct (d !! i) as [e0|]; simplify_eq/=. by rewrite Hown.
Qed.

End DomFacts.

(** ** No listener changes the shape of the document *)

Module PageFacts.
Import Dom Page DomFacts.

Lemma showNotification_dom m t p : dom (showNotification m t p) = dom p.
Proof. reflexivity. Qed.

Lemma openModal_shape b p : sameShape (dom p) (dom (openModal b p)).
Proof.
  unfold openModal. destruct (dom p !! b ≫= getAttribute "data-modal-target"); [|done].
  destruct (getElementById _ _); simpl; auto with shape.
Qed.

Lemma closeModal_shape b p : sameShape (dom p) (dom (closeModal b p)).
Proof.
  unfold closeModal. destruct (closest "modal" (dom p) b) as [m|]; [|done].
  simpl. destruct (querySelectorForm _ m); simpl; [|auto with shape].
  eapply sameShape_trans; [|apply sameShape_resetForm]. auto with shape.
Qed.

Lemma windowClick_shape t p : sameShape (dom p) (dom (windowClick t p)).
Proof.
  unfold windowClick. destruct (targetHasClass "modal" (dom p) t); [|done].
  destruct t; simpl; auto with shape.
Qed.

Lemma keyup_shape w p : sameShape (dom p) (dom (keyup w p)).
Proof.
  unfold keyup. destruct (valueOf (dom p) (searchInput w)); try done.
  destruct (Nat.ltb _ 2); simpl; auto with shape.
Qed.

Lemma searchSettled_shape sip w o p :
  sameShape (dom p) (dom (searchSettled sip w o p)).
Proof.
  unfold searchSettled.
  destruct (_ ≫= renderResults sip); simpl; auto with shape.
Qed.

Lemma resultsClick_shape w t p : sameShape (dom p) (dom (resultsClick w t p)).
Proof.
  unfold resultsClick. destruct (targetHasClass _ _ t); [|done].
  destruct (idInput w), (nameDisplay w); simpl; try done.
  repeat (eapply sameShape_trans; [|apply sameShape_alter]); auto with shape.
Qed.

Lemma submit_shape b p : sameShape (dom p) (dom (submit b p)).
Proof.
  unfold submit. destruct (_ || _); [|done].
  destruct (getElementById _ _); [|done]. by destruct (negb _).
Qed.

Lemma submitSettled_shape b o p : sameShape (dom p) (dom (submitSettled b o p)).
Proof.
  unfold submitSettled. destruct (checkResponse o) as [data|e]; simpl; [|done].
  unfold handleData. destruct (JS.getProp data "status") as [st|e]; simpl; [|done].
  destruct (JS.strictEqStr st "success"); simpl.
  - destruct (closest _ _ _); simpl;
      repeat (eapply sameShape_trans; [|apply sameShape_alter]);
      auto using sameShape_resetForm with shape.
  - by destruct (JS.getProp data "message").
Qed.

Lemma listenersAt_shape s t j p : sameShape (dom p) (dom (listenersAt s t j p)).
Proof.
  unfold listenersAt.
  assert (forall q, sameShape (dom q)
            (dom (if memb j (openModalButtons s) then openModal j q else q))) as H1.
  { intros q. destruct (memb j (openModalButtons s)); [apply openModal_shape|done]. }
  assert (forall q, sameShape (dom q)
            (dom (if memb j (closeModalButtons s) then closeModal j q else q))) as H2.
  { intros q. destruct (memb j (closeModalButtons s)); [apply closeModal_shape|done]. }
  pose proof (sameShape_trans _ _ _ (H1 p) (H2 _)) as H12.
  destruct (search s) as [w|]; [|exact H12].
  destruct (Nat.eqb j (resultsPanel w)); [|exact H12].
  eapply sameShape_trans; [exact H12|apply resultsClick_shape].
Qed.

Lemma click_shape s t p : sameShape (dom p) (dom (click s t p)).
Proof.
  unfold click. eapply sameShape_trans; [|apply windowClick_shape].
  generalize (eventPath s (dom p) t). intros path. revert p.
  induction path as [|j path IH]; intros p; simpl; [done|].
  eapply sameShape_trans; [apply listenersAt_shape|apply IH].
Qed.

Lemma step_shape sip s p ev : sameShape (dom p) (dom (step sip s p ev)).
Proof.
  destruct ev as [t| |o|f|f o]; simpl.
  - apply click_shape.
  - destruct (search s); [apply keyup_shape|done].
  - destruct (search s); [apply searchSettled_shape|done].
  - destruct (bindingOf s f); [apply submit_shape|done].
  - destruct (bindingOf s f); [apply submitSettled_shape|done].
Qed.

(** Whatever happens after load, the document keeps the shape it had:
    the elements the listeners closed over stay where they were. *)
Lemma run_shape sip s evs p : sameShape (dom p) (dom (run sip s evs p)).
Proof.
  unfold run. revert p. induction evs as [|ev evs IH]; intros p; simpl; [done|].
  eapply sameShape_trans; [apply step_shape|apply IH].
Qed.

Lemma wireSearch_shape d d' : sameShape d d' -> wireSearch d' = wireSearch d.
Proof.
  intros Hs. unfold wireSearch. by rewrite !(getElementById_shape d d' Hs).
Qed.

(** The window listener writes no value: a click on the backdrop leaves
    every field of every form as it was. *)
Lemma windowClick_values t p i :
  value <$> dom (windowClick t p) !! i = value <$> dom p !! i.
Proof.
  unfold windowClick. destruct (targetHasClass "modal" (dom p) t); [|done].
  destruct t as [j|row]; simpl; [|done].
  rewrite list_lookup_alter. case_decide; [subst|done].
  by destruct (dom p !! i).
Qed.

End PageFacts.

(** ** The page script: form submission *)

Module SubmitSpec.
Import Dom Page DomFacts.

(** The bindings made at load are those of the four main forms, each on
    the element its id names. *)
Lemma bindings_load d0 b :
  In b (bindings (load d0)) ->
  In (formId b, successMessage b, failureMessage b) mainForms
  /\ getElementById (formId b) d0 = Some (form b).
Proof.
  unfold load, mainForms, handleFormSubmission. simpl.
  destruct (getElementById "patientForm" d0) eqn:E1;
    destruct (getElementById "consultationForm" d0) eqn:E2;
    destruct (getElementById "medicineForm" d0) eqn:E3;
    destruct (getElementById "appointmentForm" d0) eqn:E4;
    simpl; intros H;
    repeat (destruct H as [<-|H]; [simpl; tauto|]); destruct H.
Qed.



(** What the handler does with a 2xx response whose [status] is not
    ["success"]: one error notification, nothing else. *)
Lemma submitSettled_failure b p status data st msg :
  responseOk status = true ->
  JS.getProp data "status" = JS.Ok st ->
  JS.strictEqStr st "success" = false ->
  JS.getProp data "message" = JS.Ok msg ->
  submitSettled b (Responded status (Json data)) p
  = showNotification
      (failureMessage b ++ ": "
       ++ JS.toString (JS.or_else msg (JS.VStr "Unknown error."))) "error" p.
Proof.
  intros Hok Hst Hne Hmsg. unfold submitSettled, checkResponse. rewrite Hok. simpl.
  unfold handleData. rewrite Hst. simpl. rewrite Hne, Hmsg. reflexivity.
Qed.

(** None of the four failure prefixes, followed by ": ID exists", holds
    the text "duplicate... ID exists". *)
Lemma mainForms_no_duplicate_text id ok ko :
  In (id, ok, ko) mainForms ->
  JS.includes "duplicate... ID exists" (ko ++ ": " ++ "ID exists") = false.
Proof.
  unfold mainForms. simpl.
  intros H. repeat (destruct H as [H|H]; [by simplify_eq|]). destruct H.
Qed.

(** C2 (as stated, refuted): for [patientForm] and the response
    [{status:"duplicate", message:"ID exists"}], the one notification shown
    reads "Failed to add patient: ID exists"; the text
    "duplicate... ID exists" occurs in no notification. *)
Lemma C2_duplicate_text_counterexample :
  let p' := submitSettled Samples.patient
              (Responded 200 (Json Samples.duplicate)) Samples.page0 in
  In Samples.patient (bindings (load Samples.doc))
  /\ notes p' = [Notification "notification notification-error"
                              "Failed to add patient: ID exists"]
  /\ ~ (exists n, In n (notes p')
                  /\ JS.includes "duplicate... ID exists" (textContent n) = true).
Proof.
  split; [vm_compute; tauto|]. split; [reflexivity|].
  intros (n & [<-|[]] & Hn). vm_compute in Hn. discriminate.
Qed.

(** C2 (amended): for each of the four bound forms, a 2xx response whose
    [status] is not ["success"] and whose [message] is truthy makes the
    handler show exactly one error notification, whose text is the form's
    failure prefix, then ": ", then the message; the document is left as it
    was (no reset), and the only task scheduled is the notification's own
    removal (no reload).  For [message] "ID exists" the text is the prefix
    followed by ": ID exists", in which "duplicate... ID exists" does not
    occur. *)
Theorem C2_application_failure (d0 : document) (b : binding) (p : page)
    (status : Z) (data st msg : JS.value) :
  In b (bindings (load d0)) ->
  responseOk status = true ->
  JS.getProp data "status" = JS.Ok st ->
  JS.strictEqStr st "success" = false ->
  JS.getProp data "message" = JS.Ok msg ->
  JS.truthy msg = true ->
  let p' := submitSettled b (Responded status (Json data)) p in
  let text := failureMessage b ++ ": " ++ JS.toString msg in
  let n := Notification "notification notification-error" text in
  In (formId b, successMessage b, failureMessage b) mainForms
  /\ notes p' = n :: notes p
  /\ dom p' = dom p
  /\ timers p' = (4000, HideNotification n) :: timers p
  /\ requests p' = requests p
  /\ console p' = console p
  /\ (msg = JS.VStr "ID exists" ->
      text = failureMessage b ++ ": ID exists"
      /\ JS.includes "duplicate... ID exists" text = false).
Proof.
  intros Hb Hok Hst Hne Hmsg Htruthy p' text n.
  destruct (bindings_load d0 b Hb) as [Hin _].
  subst p'. rewrite (submitSettled_failure b p status data st msg) by done.
  unfold JS.or_else. rewrite Htruthy. fold text.
  repeat (split; [done|]).
  intros ->. split; [done|]. subst text. simpl JS.toString.
  by eapply mainForms_no_duplicate_text.
Qed.

Lemma C2_application_failure_witness :
  In Samples.patient (bindings (load Samples.doc))
  /\ JS.strictEqStr (JS.VStr "duplicate") "success" = false
  /\ notes (submitSettled Samples.patient
              (Responded 200 (Json Samples.duplicate)) Samples.page0)
     = [Notification "notification notification-error"
                     "Failed to add patient: ID exists"].
Proof.
  assert (In Samples.patient (bindings (load Samples.doc))) as Hb
    by (vm_compute; tauto).
  split; [exact Hb|]. split; [reflexivity|].
  exact (proj1 (proj2 (C2_application_failure Samples.doc Samples.patient
                         Samples.page0 200 Samples.duplicate (JS.VStr "duplicate")
                         (JS.VStr "ID exists") Hb eq_refl eq_refl eq_refl eq_refl
                         eq_refl))).
Defined.

(** C10: when a 2xx response has a [status] other than ["success"] and its
    [message] is missing ([undefined]), [null] or the empty string, the
    error notification reads the failure prefix, then ": ", then
    "Unknown error."; the document is left as it was (no reset). *)
Theorem C10_unknown_error_fallback (b : binding) (p : page)
    (status : Z) (data st msg : JS.value) :
  responseOk status = true ->
  JS.getProp data "status" = JS.Ok st ->
  JS.strictEqStr st "success" = false ->
  JS.getProp data "message" = JS.Ok msg ->
  msg = JS.VUndefined \/ msg = JS.VNull \/ msg = JS.VStr "" ->
  let p' := submitSettled b (Responded status (Json data)) p in
  let n := Notification "notification notification-error"
                        (failureMessage b ++ ": " ++ "Unknown error.") in
  notes p' = n :: notes p
  /\ dom p' = dom p
  /\ timers p' = (4000, HideNotification n) :: timers p.
Proof.
  intros Hok Hst Hne Hmsg Hfalsy p' n.
  subst p'. rewrite (submitSettled_failure b p status data st msg) by done.
  by destruct Hfalsy as [->|[->| ->]].
Qed.

Lemma C10_unknown_error_fallback_witness :
  JS.getProp Samples.rejected "message" = JS.Ok JS.VUndefined
  /\ notes (submitSettled Samples.patient
              (Responded 200 (Json Samples.rejected)) Samples.page0)
     = [Notification "notification notification-error"
                     "Failed to add patient: Unknown error."].
Proof.
  split; [reflexivity|].
  exact (proj1 (C10_unknown_error_fallback Samples.patient Samples.page0 200
                  Samples.rejected (JS.VStr "error") JS.VUndefined
                  eq_refl eq_refl eq_refl eq_refl (or_introl eq_refl))).
Defined.

(** C3: submitting [consultationForm] or [appointmentForm] while the
    element [patient_id_input] is absent or holds the empty value shows the
    error notification "Please select a patient first." and issues no
    request; for [patientForm] and [medicineForm] the check is not made: the
    submission is posted whatever the patient field holds. *)
Theorem C3_patient_precondition (b : binding) (p : page) :
  (formId b = "consultationForm" \/ formId b = "appointmentForm" ->
   getElementById "patient_id_input" (dom p) = None
   \/ (exists i, getElementById "patient_id_input" (dom p) = Some i
                 /\ valueOf (dom p) i = JS.VStr "") ->
   let p' := submit b p in
   notes p' = Notification "notification notification-error"
                           "Please select a patient first." :: notes p
   /\ requests p' = requests p
   /\ dom p' = dom p)
  /\ (formId b = "patientForm" \/ formId b = "medicineForm" ->
      submit b p = fetch (Post endpoint (formData (dom p) (form b))) p).
Proof.
  split.
  - intros Hid Hmissing. unfold submit.
    assert (String.eqb (formId b) "consultationForm"
            || String.eqb (formId b) "appointmentForm" = true) as ->.
    { destruct Hid as [-> | ->]; reflexivity. }
    destruct Hmissing as [-> | (i & -> & Hv)]; [done|].
    by rewrite Hv.
  - intros Hid. unfold submit.
    by destruct Hid as [-> | ->].
Qed.

Lemma C3_patient_precondition_witness :
  formId Samples.consultation = "consultationForm"
  /\ getElementById "patient_id_input" Samples.doc = Some 6
  /\ valueOf Samples.doc 6 = JS.VStr ""
  /\ requests (submit Samples.consultation Samples.page0) = [].
Proof.
  split; [reflexivity|]. split; [reflexivity|]. split; [reflexivity|].
  exact (proj1 (proj2 (proj1 (C3_patient_precondition Samples.consultation
                                Samples.page0)
                         (or_introl eq_refl)
                         (or_intror (ex_intro _ 6 (conj eq_refl eq_refl)))))).
Defined.

End SubmitSpec.

(** ** The markup of the result rows, as the browser reads it *)

Module MarkupFacts.
Import Page Markup.

Lemma append_assoc (a b c : string) : (a ++ b) ++ c = a ++ (b ++ c).
Proof.
  induction a as [|x a IH]; [done|].
  change (String x ((a ++ b) ++ c) = String x (a ++ (b ++ c))). congruence.
Qed.

Lemma append_nil_r (a : string) : a ++ "" = a.
Proof.
  induction a as [|x a IH]; [done|].
  change (String x (a ++ "") = String x a). congruence.
Qed.

Lemma allChars_app f (a b : string) :
  allChars f (a ++ b) = allChars f a && allChars f b.
Proof.
  induction a as [|c a IH]; [done|].
  change (f c && allChars f (a ++ b) = f c && allChars f a && allChars f b).
  rewrite IH. by destruct (f c).
Qed.

(** What the tokenizer makes of a plain character. *)
Lemma plainChar_classify c :
  plainChar c = true ->
  Nat.eqb (nat_of_ascii c) 0 = false
  /\ Nat.eqb (nat_of_ascii c) 13 = false
  /\ classify c <> CDq /\ classify c <> CAmp /\ classify c <> CNul
  /\ classify c <> CLt.
Proof.
  destruct c as [[] [] [] [] [] [] [] []]; vm_compute; intros H;
    repeat split; (done || discriminate).
Qed.

Lemma normalize_noCR s : allChars noCR s = true -> normalize s = s.
Proof.
  induction s as [|c s IH]; [done|]. simpl allChars.
  intros [Hc Hs]%andb_true_iff. apply negb_true_iff in Hc.
  simpl. rewrite Hc. by rewrite IH.
Qed.

Lemma noCR_plain s : plain s = true -> allChars noCR s = true.
Proof.
  unfold plain. induction s as [|c s IH]; [done|]. simpl.
  intros [Hc Hs]%andb_true_iff.
  destruct (plainChar_classify c Hc) as (_ & H13 & _).
  unfold noCR at 1. rewrite H13. by apply IH.
Qed.

(** Plain characters inside a double-quoted attribute value are the value. *)
Lemma parse_value t n b v acc rest :
  plain v = true ->
  parse (AttrValueDq t n acc) b (v ++ rest)
  = parse (AttrValueDq t n (acc ++ v)) b rest.
Proof.
  unfold plain. revert acc. induction v as [|c v IH]; intros acc.
  - intros _. by rewrite append_nil_r.
  - simpl allChars. intros [Hc Hv]%andb_true_iff.
    destruct (plainChar_classify c Hc) as (_ & _ & Hdq & Hamp & Hnul & _).
    change (String c v ++ rest) with (String c (v ++ rest)).
    cbn [parse step].
    replace (acc ++ String c v) with (snoc acc c ++ v)
      by (unfold snoc; by rewrite append_assoc).
    rewrite <- IH by done.
    by destruct (classify c).
Qed.

Lemma onCurrent_text c v b :
  onCurrent (addText v) (onCurrent (addChar c) b) = onCurrent (addText (String c v)) b.
Proof.
  unfold onCurrent, addText, addChar, snoc.
  destruct (opened b); simpl; by rewrite append_assoc.
Qed.

Lemma onCurrent_nothing b : onCurrent (addText "") b = b.
Proof.
  unfold onCurrent, addText. destruct b as [[|[] o] []]; simpl; by rewrite append_nil_r.
Qed.

(** Plain characters between tags are text of the current element. *)
Lemma parse_text b v rest :
  plain v = true ->
  parse Data b (v ++ rest) = parse Data (onCurrent (addText v) b) rest.
Proof.
  unfold plain. revert b. induction v as [|c v IH]; intros b.
  - intros _. by rewrite onCurrent_nothing.
  - simpl allChars. intros [Hc Hv]%andb_true_iff.
    destruct (plainChar_classify c Hc) as (H0 & _ & _ & Hamp & _ & Hlt).
    change (String c v ++ rest) with (String c (v ++ rest)).
    cbn [parse step].
    rewrite <- onCurrent_text, <- IH by done.
    destruct (classify c); try done; cbn [feed feed1]; by rewrite H0.
Qed.

(** The fixed parts of the row template, one tokenizer run each. *)
Lemma parse_row_open b rest :
  parse Data b ("<div class=" ++ dq ++ "search-result-item" ++ dq
                ++ " data-id=" ++ dq ++ rest)
  = parse (AttrValueDq (Tag false "div" [("class", "search-result-item")]) "data-id" "")
          b rest.
Proof. reflexivity. Qed.

Lemma parse_row_name t v b rest :
  parse (AttrValueDq t "data-id" v) b (dq ++ " data-name=" ++ dq ++ rest)
  = parse (AttrValueDq (addAttr t "data-id" v) "data-name" "") b rest.
Proof. reflexivity. Qed.

Lemma parse_row_start pid v b rest :
  parse (AttrValueDq (Tag false "div" [("class", "search-result-item"); ("data-id", pid)])
                     "data-name" v) b (dq ++ ">" ++ rest)
  = parse Data (Builder (Frame [("class", "search-result-item"); ("data-id", pid);
                                ("data-name", v)] [] "" :: opened b) (root b)) rest.
Proof. reflexivity. Qed.

Lemma parse_row_end b rest :
  parse Data b ("</div>" ++ rest) = parse Data (closeDiv b) rest.
Proof. reflexivity. Qed.

Lemma rowTemplate_parts (pid name idn : JS.value) rest :
  rowTemplate pid name idn ++ rest
  = "<div class=" ++ dq ++ "search-result-item" ++ dq ++ " data-id=" ++ dq
    ++ (JS.toString pid
        ++ (dq ++ " data-name=" ++ dq
            ++ (JS.toString name
                ++ (dq ++ ">"
                    ++ ((JS.toString name ++ " (" ++ JS.toString idn ++ ")")
                        ++ ("</div>" ++ rest)))))).
Proof.
  unfold rowTemplate. rewrite !append_assoc. reflexivity.
Qed.

Lemma text_not_empty (a b : string) : String.eqb (a ++ " (" ++ b) "" = false.
Proof. by destruct a. Qed.

Lemma closeDiv_text attrs (t : string) o r :
  String.eqb t "" = false ->
  closeDiv (onCurrent (addText t) (Builder (Frame attrs [] "" :: o) r))
  = onCurrent (addNode (Elem attrs [TextNode t])) (Builder o r).
Proof.
  intros H.
  cbv [closeDiv onCurrent addText addNode kids opened root fAttrs fKids fText rev
       List.app].
  change ("" ++ t) with t. by rewrite H.
Qed.

(** One row of plain fields is read as one [div]. *)
Lemma parse_row (pid name idn : JS.value) b rest :
  plain (JS.toString pid) = true -> plain (JS.toString name) = true ->
  plain (JS.toString idn) = true ->
  parse Data b (rowTemplate pid name idn ++ rest)
  = parse Data (onCurrent (addNode (rowNode (JS.toString pid) (JS.toString name)
                                            (JS.toString idn))) b) rest.
Proof.
  intros Hp Hn Hi.
  rewrite rowTemplate_parts, parse_row_open, (parse_value _ _ _ _ _ _ Hp).
  rewrite parse_row_name, (parse_value _ _ _ _ _ _ Hn).
  change (addAttr _ "data-id" ("" ++ JS.toString pid))
    with (Tag false "div" [("class", "search-result-item"); ("data-id", JS.toString pid)]).
  rewrite parse_row_start, parse_text, parse_row_end.
  - destruct b as [o r]. cbn [opened root].
    by rewrite closeDiv_text by apply text_not_empty.
  - unfold plain in *. rewrite !allChars_app, Hn, Hi. reflexivity.
Qed.

#[local] Abbreviation prop k fields := (default JS.VUndefined (JS.lookupField k fields)).

#[local] Abbreviation rowOf fields :=
  (rowTemplate (prop "patient_id" fields) (prop "full_name" fields)
               (prop "id_number" fields)).

Lemma plainRecord_fields fields :
  plainRecord fields = true ->
  plain (JS.toString (prop "patient_id" fields)) = true
  /\ plain (JS.toString (prop "full_name" fields)) = true
  /\ plain (JS.toString (prop "id_number" fields)) = true.
Proof.
  unfold plainRecord, printed. by intros [[? ?]%andb_true_iff ?]%andb_true_iff.
Qed.

Lemma noCR_rows records :
  forallb plainRecord records = true ->
  allChars noCR (foldr String.append "" ((fun fields => rowOf fields) <$> records)) = true.
Proof.
  induction records as [|fields records IH]; [done|].
  cbn [forallb]. intros [Hf Hr]%andb_true_iff.
  destruct (plainRecord_fields _ Hf) as (Hp & Hn & Hi).
  cbn [fmap list_fmap foldr]. rewrite allChars_app, IH by done.
  unfold rowTemplate.
  rewrite !allChars_app, (noCR_plain _ Hp), (noCR_plain _ Hn), (noCR_plain _ Hi).
  reflexivity.
Qed.

Lemma parse_rows records b :
  forallb plainRecord records = true ->
  parse Data b (foldr String.append "" ((fun fields => rowOf fields) <$> records))
  = finish Data (fold_left (fun b fields => onCurrent (addNode (nodeOf fields)) b)
                           records b).
Proof.
  revert b. induction records as [|fields records IH]; intros b; [done|].
  cbn [forallb]. intros [Hf Hr]%andb_true_iff.
  destruct (plainRecord_fields _ Hf) as (Hp & Hn & Hi).
  cbn [fmap list_fmap foldr fold_left]. by rewrite parse_row, IH.
Qed.

Lemma rows_built records acc :
  fold_left (fun b fields => onCurrent (addNode (nodeOf fields)) b) records
            (Builder [] (Frame [] acc ""))
  = Builder [] (Frame [] (rev (nodeOf <$> records) ++ acc) "").
Proof.
  revert acc. induction records as [|fields records IH]; intros acc; [done|].
  cbn [fold_left fmap list_fmap rev].
  change (onCurrent (addNode (nodeOf fields)) (Builder [] (Frame [] acc "")))
    with (Builder [] (Frame [] (nodeOf fields :: acc) "")).
  rewrite IH. by rewrite <- app_assoc.
Qed.

(** The markup of plain records, read in a [div]: one [div] per record. *)
Lemma rendered_rows records :
  forallb plainRecord records = true ->
  rendered "div" (foldr String.append "" ((fun fields => rowOf fields) <$> records))
  = Some (nodeOf <$> records).
Proof.
  intros H. unfold rendered. cbn [String.eqb Ascii.eqb Bool.eqb].
  rewrite normalize_noCR by by apply noCR_rows.
  rewrite parse_rows, rows_built by done.
  cbn. by rewrite app_nil_r, rev_involutive.
Qed.

End MarkupFacts.

(** ** Transport failures of the two requests *)

Module TransportSpec.
Import Dom Page.

(** C8 (as stated, refuted): when the search request is rejected, the
    error is caught and logged, and no notification is shown. *)
Lemma C8_search_failure_counterexample :
  let p' := searchSettled (fun _ => false) Samples.theWiring
              (Rejected Samples.networkError) Samples.page0 in
  console p' = [Log "Error searching patients:" (Some Samples.networkError)]
  /\ ~ (exists n, In n (notes p')).
Proof.
  split; [reflexivity|]. intros (n & []).
Qed.

(** C8 (amended): a transport failure of the form submission (the fetch is
    rejected, or the response is not 2xx) is caught, logged, and shown as
    the notification "An unexpected error occurred: ..." of class error,
    and no request is issued again; a rejected search request is caught and
    logged only: no notification, no request, the document as it was. *)
Theorem C8_transport_failure (stringIsPositive : string -> bool)
    (b : binding) (w : wiring) (p : page) (o : outcome) (e : JS.error) :
  o = Rejected e
  \/ (exists status body,
        o = Responded status body /\ responseOk status = false
        /\ e = httpError status) ->
  (let p' := submitSettled b o p in
   let n := Notification "notification notification-error"
                         ("An unexpected error occurred: " ++ JS.errMessage e) in
   console p' = Log "Submission Error:" (Some e) :: console p
   /\ notes p' = n :: notes p
   /\ requests p' = requests p
   /\ dom p' = dom p)
  /\ (let p' := searchSettled stringIsPositive w (Rejected e) p in
      console p' = Log "Error searching patients:" (Some e) :: console p
      /\ notes p' = notes p
      /\ requests p' = requests p
      /\ dom p' = dom p).
Proof.
  intros Ho. split; [|done].
  destruct Ho as [-> | (status & body & -> & Hok & ->)].
  - done.
  - unfold submitSettled, checkResponse. rewrite Hok. done.
Qed.

Lemma C8_transport_failure_witness :
  responseOk 500 = false
  /\ notes (submitSettled Samples.consultation
              (Responded 500 (Json Samples.success)) Samples.page0)
     = [Notification "notification notification-error"
                     "An unexpected error occurred: HTTP error! Status: 500"].
Proof.
  split; [reflexivity|].
  exact (proj1 (proj2 (proj1
    (C8_transport_failure (fun _ => false) Samples.consultation Samples.theWiring
       Samples.page0 (Responded 500 (Json Samples.success)) (httpError 500)
       (or_intror (ex_intro _ 500%Z (ex_intro _ (Json Samples.success)
                                      (conj eq_refl (conj eq_refl eq_refl))))))))).
Defined.

End TransportSpec.

(** ** The page script: patient search *)

Module SearchSpec.
Import Dom Page DomFacts MarkupFacts.

(** C4: on a key release with a value whose trimmed length is below 2, the
    listener issues no request and leaves the result panel with the empty
    markup: its contents are [Html ""], the panel itself is otherwise as
    it was, and so is every element outside the panel; nothing is shown,
    scheduled or logged. *)
Theorem C4_short_term (w : wiring) (p : page) (v : string) (e : element) :
  valueOf (dom p) (searchInput w) = JS.VStr v ->
  String.length (trim v) < 2 ->
  dom p !! resultsPanel w = Some e ->
  let p' := keyup w p in
  requests p' = requests p
  /\ (exists e', dom p' !! resultsPanel w = Some e'
                 /\ inner e' = Html ""
                 /\ skeleton e' = skeleton e
                 /\ display e' = display e /\ value e' = value e)
  /\ (forall j, j <> resultsPanel w -> isInside (dom p) (resultsPanel w) j = false ->
                dom p' !! j = dom p !! j)
  /\ notes p' = notes p /\ timers p' = timers p /\ console p' = console p.
Proof.
  intros Hv Hlen He p'. subst p'. unfold keyup. rewrite Hv.
  apply Nat.ltb_lt in Hlen. rewrite Hlen. cbn [withDom dom requests notes timers console].
  split; [done|]. split.
  - exists (setInner (Html "") e). rewrite list_lookup_alter_eq, He.
    by repeat split.
  - split; [|done]. intros j Hj _. by rewrite list_lookup_alter_ne.
Qed.

Lemma C4_short_term_witness :
  valueOf Samples.doc 4 = JS.VStr " a "
  /\ String.length (trim " a ") < 2
  /\ inner <$> Samples.doc !! 5 = Some Children
  /\ requests (keyup Samples.theWiring Samples.page0) = []
  /\ inner <$> dom (keyup Samples.theWiring Samples.page0) !! 5 = Some (Html "").
Proof.
  assert (String.length (trim " a ") < 2) as Hlen by (vm_compute; lia).
  split; [reflexivity|]. split; [exact Hlen|]. split; [reflexivity|].
  destruct (C4_short_term Samples.theWiring Samples.page0 " a " _ eq_refl Hlen eq_refl)
    as (Hreq & (e' & He' & Hin & _) & _).
  split; [exact Hreq|].
  change (Samples.theWiring.(resultsPanel)) with 5 in He'.
  rewrite He'. simpl. by rewrite Hin.
Defined.

(** The property [k] of a parsed record. *)
#[local] Abbreviation prop k fields := (default JS.VUndefined (JS.lookupField k fields)).

#[local] Abbreviation rowOf fields :=
  (rowTemplate (prop "patient_id" fields) (prop "full_name" fields)
               (prop "id_number" fields)).

(** The loop appends one row per record to the markup so far. *)
Lemma forEachRow_records (records : list (list (string * JS.value))) (html : string) :
  forEachRow (JS.VObj <$> records) html
  = JS.Ok (html ++ foldr String.append "" ((fun fields => rowOf fields) <$> records)).
Proof.
  revert html. induction records as [|fields records IH]; intros html; simpl.
  - by rewrite append_nil_r.
  - change (forEachRow (JS.VObj <$> fields :: records) html)
      with (forEachRow (JS.VObj <$> records) (html ++ rowOf fields)).
    rewrite IH. by rewrite append_assoc.
Qed.




(** The wiring found at load names four different elements. *)
Lemma wireSearch_elements (d : document) (w : wiring) (i n : nat) :
  wireSearch d = Some w -> idInput w = Some i -> nameDisplay w = Some n ->
  let s := searchInput w in
  let r := resultsPanel w in
  (is_Some (d !! s) /\ is_Some (d !! r) /\ is_Some (d !! i) /\ is_Some (d !! n))
  /\ s <> r /\ s <> i /\ s <> n /\ r <> i /\ r <> n /\ i <> n.
Proof.
  unfold wireSearch.
  destruct (getElementById "patient_search_input" d) as [s|] eqn:Hs; [|done].
  destruct (getElementById "patient_search_results" d) as [r|] eqn:Hr; [|done].
  intros [= <-]. simpl. intros Hi Hn.
  split.
  - repeat split;
      match goal with
      | H : getElementById _ d = Some ?x |- is_Some (d !! ?x) =>
          destruct (getElementById_idAttr _ _ _ H) as (? & -> & _); eauto
      end.
  - repeat split; intros ->;
      match goal with
      | H1 : getElementById ?a d = Some ?x, H2 : getElementById ?b d = Some ?x |- _ =>
          assert (a = b) by (by eapply getElementById_inj); discriminate
      end.
Qed.



End SearchSpec.

(** ** The page script: modals *)

Module ModalSpec.
Import Dom Page DomFacts.

(** The close button resets the first form of the modal it closes. *)
Lemma closeModal_resets (button m f : nat) (p : page) :
  closest "modal" (dom p) button = Some m ->
  querySelectorForm (dom p) m = Some f ->
  let p' := closeModal button p in
  (exists e, dom p' !! m = Some e /\ display e = Some "none")
  /\ (forall i e, dom p' !! i = Some e -> ownedBy (dom p') f i = true ->
                  value e = Some (defaultValue e)).
Proof.
  intros Hm Hf p'. subst p'. unfold closeModal. rewrite Hm. simpl.
  set (d1 := alter (setDisplay "none") m (dom p)).
  assert (sameShape (dom p) d1) as Hs by (subst d1; auto with shape).
  rewrite (querySelectorForm_shape (dom p) d1 Hs), Hf. simpl.
  split.
  - destruct (closest_lookup _ _ _ _ Hm) as [e He].
    pose proof (sameShape_lookup _ _ m
                  (sameShape_trans _ _ _ Hs (sameShape_resetForm f d1))) as Hl.
    rewrite He in Hl.
    destruct (resetForm f d1 !! m) as [e1|] eqn:He1; [|done].
    exists e1. split; [done|].
    unfold resetForm in He1. rewrite list_lookup_imap in He1.
    subst d1. rewrite list_lookup_alter_eq, He in He1. simpl in He1.
    destruct (ownedBy _ f m); by simplify_eq.
  - intros i e. apply (reset_then_hide f d1 None).
Qed.

(** C7 (the code at the failing input): on the sample page the
    consultation modal is open and its form holds the note "cough".  A
    click on the modal itself, the backdrop, sets its display to [none] and
    leaves the note in place, although a click on the modal's close button
    blanks it. *)
Theorem C7_backdrop_close_keeps_form :
  let backdrop := click Samples.theScript (InDocument 0) Samples.page0 in
  let button := click Samples.theScript (InDocument 2) Samples.page0 in
  display <$> Samples.doc !! 0 = Some (Some "block")
  /\ querySelectorForm Samples.doc 0 = Some 3
  /\ ownedBy Samples.doc 3 8 = true
  /\ display <$> dom backdrop !! 0 = Some (Some "none")
  /\ value <$> dom backdrop !! 8 = Some (Some "cough")
  /\ defaultValue <$> dom backdrop !! 8 = Some ""
  /\ display <$> dom button !! 0 = Some (Some "none")
  /\ value <$> dom button !! 8 = Some (Some "").
Proof. repeat split. Qed.

End ModalSpec.

(** ** firebase_app.js: the empty configuration *)

Module FirebaseSpec.
Import Firebase.

Section Inert.

Variable sdk : SDK.

Lemma print_inert l t a (s : state sdk) : inert sdk s -> inert sdk (print sdk l t a s).
Proof. by intros (? & ? & ? & ? & ? & ? & ?). Qed.

(** Without a database handle the call only prints. *)
Lemma fetchRealtimeData_inert appId (s : state sdk) :
  inert sdk s ->
  fetchRealtimeData sdk appId s
  = print sdk LError "Cannot fetch data: Firebase or Auth not ready." NoArg s.
Proof.
  intros (_ & Hdb & _ & _ & Hready & _). unfold fetchRealtimeData.
  by rewrite Hready.
Qed.

Lemma step_inert appId (s : state sdk) e : inert sdk s -> inert sdk (step sdk appId s e).
Proof.
  intros Hs. destruct e as [user uuid|]; simpl.
  - destruct Hs as (? & ? & ? & ? & ? & Hobs & ?). rewrite Hobs. by repeat split.
  - rewrite fetchRealtimeData_inert by done. by apply print_inert.
Qed.

Lemma run_inert appId es (s : state sdk) : inert sdk s -> inert sdk (run sdk appId es s).
Proof.
  unfold run. revert s. induction es as [|e es IH]; intros s Hs; simpl; [done|].
  apply IH. by apply step_inert.
Qed.

(** In an inert state the events add nothing to the console but the error
    of each call of [fetchRealtimeData]. *)
Lemma run_inert_console appId es (s : state sdk) :
  inert sdk s ->
  console sdk (run sdk appId es s)
  = (replicate (fetches es)
               (Line LError "Cannot fetch data: Firebase or Auth not ready." NoArg)
     ++ console sdk s)%list.
Proof.
  set (l := Line LError "Cannot fetch data: Firebase or Auth not ready." NoArg).
  assert (forall n c, (replicate n l ++ l :: c = l :: replicate n l ++ c)%list) as Hl.
  { induction n as [|n IH]; intros c; simpl; [done|]. by rewrite IH. }
  unfold run. revert s. induction es as [|e es IH]; intros s Hs; [done|].
  cbn [fold_left]. rewrite IH by by apply step_inert.
  destruct e as [user uuid|]; unfold fetches; cbn [List.filter length step].
  - destruct Hs as (_ & _ & _ & _ & _ & Hobs & _). by rewrite Hobs.
  - rewrite fetchRealtimeData_inert by done. cbn [print console replicate].
    apply Hl.
Qed.

(** C9 (amended): with a configuration that is absent or parses to a value
    with no own keys, [initializeFirebase] prints the one error
    "Firebase configuration is missing or empty." and returns.  After it
    and after any sequence of later events (observer calls by the SDK,
    calls of [fetchRealtimeData]) the handles [app], [db], [auth] and
    [userId] are still [null], the readiness flag is still false and no
    subscription is open; the console holds that first error and, for each
    call of [fetchRealtimeData], the error "Cannot fetch data: Firebase or
    Auth not ready."; one more call adds that error once more and again
    opens no subscription. *)
Theorem C9_empty_configuration (g : globals) (config : JS.value) (es : list event) :
  firebaseConfig g = JS.Ok config ->
  keyCount config = JS.Ok 0 ->
  let missing := Line LError "Firebase configuration is missing or empty." NoArg in
  let notReady := Line LError "Cannot fetch data: Firebase or Auth not ready." NoArg in
  let s0 := initializeFirebase sdk config (initialAuthToken g) (initial sdk) in
  let s := run sdk (appId g) es s0 in
  let s' := fetchRealtimeData sdk (appId g) s in
  loadModule sdk g = JS.Ok s0
  /\ console sdk s0 = [missing]
  /\ app sdk s = None /\ db sdk s = None /\ auth sdk s = None /\ userId sdk s = None
  /\ isAuthReady sdk s = false
  /\ subscriptions sdk s = []
  /\ console sdk s = (replicate (fetches es) notReady ++ [missing])%list
  /\ console sdk s' = notReady :: console sdk s
  /\ subscriptions sdk s' = []
  /\ app sdk s' = None /\ db sdk s' = None /\ auth sdk s' = None /\ userId sdk s' = None
  /\ isAuthReady sdk s' = false.
Proof.
  intros Hg Hkeys missing notReady s0 s s'.
  assert (s0 = print sdk LError "Firebase configuration is missing or empty." NoArg
                 (initial sdk)) as Hs0.
  { subst s0. unfold initializeFirebase, tryCatch. simpl.
    unfold mbind, M_bind, bind, call. rewrite Hkeys. reflexivity. }
  assert (inert sdk s0) as Hin0 by (rewrite Hs0; apply print_inert; by repeat split).
  assert (inert sdk s) as Hin by (subst s; by apply run_inert).
  assert (s' = print sdk LError "Cannot fetch data: Firebase or Auth not ready." NoArg s)
    as Hs' by (subst s'; by apply fetchRealtimeData_inert).
  assert (inert sdk s') as Hin' by (rewrite Hs'; by apply print_inert).
  split; [unfold loadModule; by rewrite Hg|].
  split; [by rewrite Hs0|].
  destruct Hin as (? & ? & ? & ? & ? & ? & ?).
  destruct Hin' as (? & ? & ? & ? & ? & ? & ?).
  repeat (split; [done|]).
  split; [|split; [by rewrite Hs'|done]].
  subst s. rewrite run_inert_console by done. by rewrite Hs0.
Qed.

End Inert.

(** C9 (as stated, refuted): with the empty text injected as the
    configuration, [JSON.parse] throws at the module's top level; the
    module ends there, [initializeFirebase] is never called and prints
    nothing, and no state of the module exists. *)
Lemma C9_empty_text_counterexample :
  firebaseConfig Samples.emptyBlob
  = JS.Throw (JS.Error "SyntaxError" "Unexpected end of JSON input")
  /\ loadModule Samples.okSdk Samples.emptyBlob
     = JS.Throw (JS.Error "SyntaxError" "Unexpected end of JSON input")
  /\ ~ (exists s, loadModule Samples.okSdk Samples.emptyBlob = JS.Ok s).
Proof.
  split; [reflexivity|]. split; [reflexivity|]. by intros [s Hs].
Qed.

Lemma C9_empty_configuration_witness :
  keyCount (JS.VObj []) = JS.Ok 0
  /\ (let s := run Samples.okSdk (appId Samples.noGlobals)
                 [AuthStateChanged (Some "u1") "r"; FetchRealtimeData]
                 (initializeFirebase Samples.okSdk (JS.VObj [])
                    (initialAuthToken Samples.noGlobals) (initial Samples.okSdk)) in
      console Samples.okSdk s
      = [Line LError "Cannot fetch data: Firebase or Auth not ready." NoArg;
         Line LError "Firebase configuration is missing or empty." NoArg]
      /\ subscriptions Samples.okSdk s = []).
Proof.
  split; [reflexivity|].
  pose proof (C9_empty_configuration Samples.okSdk Samples.noGlobals (JS.VObj [])
                [AuthStateChanged (Some "u1") "r"; FetchRealtimeData]
                eq_refl eq_refl) as H.
  cbv zeta in H.
  destruct H as (_ & _ & _ & _ & _ & _ & _ & Hsubs & Hcon & _).
  split; [exact Hcon|exact Hsubs].
Defined.

End FirebaseSpec.

(** * Further properties of the two scripts *)

(** ** The notification element *)

Module ToastSpec.
Import Toast.

Lemma detached_stays evs t : attached t = false -> attached (run evs t) = false.
Proof.
  unfold run. revert t. induction evs as [|ev evs IH]; intros t Ht; simpl; [done|].
  apply IH. destruct ev; simpl; [done|]. by destruct (Nat.eqb (removers t) 0).
Qed.

(** Once the timer has run, the next [transitionend] removes the element. *)
Lemma armed_removed evs t :
  removers t <> 0 ->
  attached (run evs t) = false <-> attached t = false \/ In TransitionEnd evs.
Proof.
  unfold run. revert t. induction evs as [|ev evs IH]; intros t Ht; simpl.
  - tauto.
  - destruct ev; simpl.
    + rewrite IH by done. simpl. intuition congruence.
    + apply Nat.eqb_neq in Ht. rewrite Ht.
      split; [auto|]. intros _. by apply (detached_stays evs).
Qed.

(** X1: The element [showNotification] creates leaves the page exactly when a
    [transitionend] reaches it after the 4000 ms callback has run: never
    before the callback, and never without a transition. *)
Theorem toast_removed_iff (n : Page.notification) (evs : list event) :
  attached (run evs (create n)) = false
  <-> exists before after,
        evs = (before ++ Timeout :: after)%list /\ In TransitionEnd after.
Proof.
  assert (forall t, removers t = 0 -> attached t = true ->
            attached (run evs t) = false
            <-> exists before after,
                  evs = (before ++ Timeout :: after)%list /\ In TransitionEnd after)
    as H; [|by apply H].
  induction evs as [|ev evs IH]; intros t Hr Ha.
  - simpl. split; [congruence|]. intros (b & a & Hb & _). by destruct b.
  - destruct ev.
    + change (run (Timeout :: evs) t) with (run evs (fire t Timeout)).
      rewrite armed_removed by done. simpl. split.
      * intros [?|Hin]; [congruence|]. by exists [], evs.
      * intros (b & a & Hb & Hin). right. destruct b as [|x b]; simplify_eq/=; [done|].
        apply in_app_iff. right. by right.
    + change (run (TransitionEnd :: evs) t) with (run evs (fire t TransitionEnd)).
      simpl. rewrite Hr. simpl. rewrite (IH t Hr Ha). split.
      * intros (b & a & -> & Hin). by exists (TransitionEnd :: b), a.
      * intros (b & a & Hb & Hin). destruct b as [|x b]; simplify_eq/=. eauto.
Qed.

End ToastSpec.

(** ** Modals and click dispatch *)

Module ModalExtra.
Import Dom Page DomFacts PageFacts.

Lemma in_tail {A} (x : A) (l : list A) : In x (tail l) -> In x l.
Proof. destruct l; simpl; auto. Qed.

(** Every close button registered at load has a modal to close. *)
Lemma closeButton_has_modal (d : document) (button : nat) :
  In button (closeModalButtons (load d)) -> is_Some (closest "modal" d button).
Proof.
  unfold load, selectAll. simpl. intros [_ H]%filter_In.
  apply andb_true_iff in H as [_ H]. apply existsb_exists in H as (m & Hm & Hcls).
  apply in_tail in Hm. unfold closest.
  destruct (find (hasClass "modal" d) (ancestorsOrSelf d button)) eqn:Hf; [eauto|].
  pose proof (find_none _ _ Hf m Hm). congruence.
Qed.

(** The listeners of an element that is neither a trigger, nor a close
    button, nor the result panel do nothing. *)
Lemma listenersAt_none s t j p :
  memb j (openModalButtons s) = false ->
  memb j (closeModalButtons s) = false ->
  (forall w, search s = Some w -> j <> resultsPanel w) ->
  listenersAt s t j p = p.
Proof.
  intros Ho Hc Hw. unfold listenersAt. rewrite Ho, Hc.
  destruct (search s) as [w|]; [|done].
  specialize (Hw w eq_refl). apply Nat.eqb_neq in Hw. by rewrite Hw.
Qed.

Lemma fold_listeners_none s t path p :
  (forall j, In j path ->
     memb j (openModalButtons s) = false
     /\ memb j (closeModalButtons s) = false
     /\ (forall w, search s = Some w -> j <> resultsPanel w)) ->
  fold_left (fun q j => listenersAt s t j q) path p = p.
Proof.
  induction path as [|j path IH]; intros H; simpl; [done|].
  destruct (H j (or_introl eq_refl)) as (Ho & Hc & Hw).
  rewrite listenersAt_none by done. apply IH. intros; apply H; by right.
Qed.

(** The path of a click starts at its target. *)
Lemma ancestorsOrSelf_head d i :
  is_Some (d !! i) -> ancestorsOrSelf d i = i :: tail (ancestorsOrSelf d i).
Proof.
  intros [e He]. unfold ancestorsOrSelf.
  destruct d as [|e0 d]; [done|]. cbn [length chain]. by rewrite He.
Qed.

(** A click on an element above which nothing listens runs the listeners
    of that element, then the window listener. *)
Lemma click_target_only s i p :
  is_Some (dom p !! i) ->
  (forall j, In j (tail (ancestorsOrSelf (dom p) i)) ->
     memb j (openModalButtons s) = false
     /\ memb j (closeModalButtons s) = false
     /\ (forall w, search s = Some w -> j <> resultsPanel w)) ->
  click s (InDocument i) p
  = windowClick (InDocument i) (listenersAt s (InDocument i) i p).
Proof.
  intros Hi Hq. unfold click. cbn [eventPath].
  rewrite (ancestorsOrSelf_head _ _ Hi). cbn [fold_left].
  by rewrite fold_listeners_none.
Qed.

(** X2: A click on a trigger that is not also a close button, the result
    panel or a modal, and above which nothing listens, sets the display of
    the element its [data-modal-target] names to [block] and changes
    nothing else: every other element is as it was, no value changes, and
    nothing is shown, scheduled, requested or logged.  A target that names
    no element leaves the page as it is. *)
Theorem open_button_effect (s : script) (button : nat) (id : string) (p : page) :
  dom p !! button ≫= getAttribute "data-modal-target" = Some id ->
  memb button (openModalButtons s) = true ->
  memb button (closeModalButtons s) = false ->
  (forall w, search s = Some w -> button <> resultsPanel w) ->
  hasClass "modal" (dom p) button = false ->
  (forall j, In j (tail (ancestorsOrSelf (dom p) button)) ->
     memb j (openModalButtons s) = false
     /\ memb j (closeModalButtons s) = false
     /\ (forall w, search s = Some w -> j <> resultsPanel w)) ->
  let p' := click s (InDocument button) p in
  (forall m, getElementById id (dom p) = Some m ->
     (exists e, dom p' !! m = Some e /\ display e = Some "block")
     /\ (forall j, j <> m -> dom p' !! j = dom p !! j)
     /\ (forall j, value <$> dom p' !! j = value <$> dom p !! j)
     /\ notes p' = notes p /\ timers p' = timers p /\ requests p' = requests p
     /\ console p' = console p)
  /\ (getElementById id (dom p) = None -> p' = p).
Proof.
  intros Hattr Ho Hc Hw Hcls Hq p'.
  assert (p' = openModal button p) as ->.
  { subst p'. rewrite click_target_only; [|by destruct (dom p !! button)|done].
    unfold listenersAt. rewrite Ho, Hc.
    assert (match search s with
            | Some w => if Nat.eqb button (resultsPanel w)
                        then resultsClick w (InDocument button) (openModal button p)
                        else openModal button p
            | None => openModal button p
            end = openModal button p) as ->.
    { destruct (search s) as [w|]; [|done].
      specialize (Hw w eq_refl). apply Nat.eqb_neq in Hw. by rewrite Hw. }
    unfold windowClick. cbn [targetHasClass].
    by rewrite (hasClass_shape _ _ (openModal_shape button p)), Hcls. }
  unfold openModal. rewrite Hattr. split.
  - intros m Hm. rewrite Hm. simpl.
    destruct (getElementById_idAttr _ _ _ Hm) as (e & He & _).
    split; [|split; [|split]].
    + rewrite list_lookup_alter_eq, He. by eexists.
    + intros j Hj. by rewrite list_lookup_alter_ne.
    + intros j. rewrite list_lookup_alter. case_decide; [subst|done].
      by destruct (dom p !! j).
    + done.
  - by intros ->.
Qed.

Lemma open_button_effect_witness :
  Samples.doc !! 9 ≫= getAttribute "data-modal-target" = Some "consultModal"
  /\ getElementById "consultModal" Samples.doc = Some 0
  /\ (let p' := click Samples.theScript (InDocument 9) Samples.hidden in
      display <$> dom Samples.hidden !! 0 = Some (Some "none")
      /\ exists e, dom p' !! 0 = Some e /\ display e = Some "block").
Proof.
  split; [reflexivity|]. split; [reflexivity|]. split; [reflexivity|].
  refine (proj1 (proj1 (open_button_effect Samples.theScript 9 "consultModal"
                          Samples.hidden eq_refl eq_refl eq_refl _ eq_refl _)
                   0 eq_refl)).
  - intros w Hw. vm_compute in Hw. injection Hw as <-. discriminate.
  - intros j Hj. vm_compute in Hj. destruct Hj.
Defined.



(** X4: A click that bubbles through no trigger, no close button and not the
    result panel does one of two things: on an element of class [modal]
    (the backdrop) it sets that element's display to [none] and changes
    nothing else; on any other element (the modal's content, say) it
    changes nothing at all. *)
Theorem click_backdrop_or_nothing (s : script) (i : nat) (p : page) :
  (forall j, In j (ancestorsOrSelf (dom p) i) ->
     memb j (openModalButtons s) = false
     /\ memb j (closeModalButtons s) = false
     /\ (forall w, search s = Some w -> j <> resultsPanel w)) ->
  click s (InDocument i) p
  = if hasClass "modal" (dom p) i
    then withDom (alter (setDisplay "none") i) p
    else p.
Proof.
  intros H. unfold click. simpl eventPath.
  rewrite fold_listeners_none by done. reflexivity.
Qed.

Lemma click_backdrop_or_nothing_witness :
  hasClass "modal" Samples.doc 1 = false
  /\ click Samples.theScript (InDocument 1) Samples.page0 = Samples.page0.
Proof.
  split; [reflexivity|].
  refine (click_backdrop_or_nothing Samples.theScript 1 Samples.page0 _).
  intros j Hj. vm_compute in Hj.
  destruct Hj as [<-|[<-|[]]]; (split; [reflexivity|split; [reflexivity|]]);
    intros w Hw; vm_compute in Hw; injection Hw as <-; discriminate.
Defined.

End ModalExtra.

(** ** What the listeners add to the page, event by event *)

Module LedgerSpec.
Import Dom Page DomFacts PageFacts.

(** A value whose [status] can be read lets [message] be read too. *)
Lemma getProp_total data k k' v :
  JS.getProp data k = JS.Ok v -> exists v', JS.getProp data k' = JS.Ok v'.
Proof. destruct data; simpl; intros; simplify_eq; eauto. Qed.

(** The two ways a settled submission ends. *)
Lemma submitSettled_cases b o p :
  let p' := submitSettled b o p in
  requests p' = requests p
  /\ ((reportsSuccess o = true
       /\ console p' = console p
       /\ exists n, notes p' = n :: notes p
                    /\ className n = "notification notification-success"
                    /\ timers p' = (500, Reload) :: (4000, HideNotification n) :: timers p)
      \/ (reportsSuccess o = false
          /\ dom p' = dom p
          /\ exists n, notes p' = n :: notes p
                       /\ className n = "notification notification-error"
                       /\ timers p' = (4000, HideNotification n) :: timers p)).
Proof.
  intros p'. subst p'. unfold submitSettled, checkResponse, reportsSuccess.
  destruct o as [e|status [e|data]]; simpl.
  - split; [done|]. right. repeat split. by eexists.
  - destruct (responseOk status); simpl;
      (split; [done|]; right; repeat split; by eexists).
  - destruct (responseOk status); simpl;
      [|split; [done|]; right; repeat split; by eexists].
    unfold handleData.
    destruct (JS.getProp data "status") as [st|e] eqn:Hst; simpl;
      [|split; [done|]; right; repeat split; by eexists].
    destruct (JS.strictEqStr st "success"); simpl.
    + destruct (closest "modal" _ (form b)); simpl;
        (split; [done|]; left; repeat split; by eexists).
    + destruct (getProp_total data "status" "message" st Hst) as [msg ->]. simpl.
      split; [done|]. right. repeat split. by eexists.
Qed.

Lemma openModal_ledger b p :
  notes (openModal b p) = notes p /\ timers (openModal b p) = timers p
  /\ requests (openModal b p) = requests p.
Proof. unfold openModal. by repeat case_match. Qed.

Lemma closeModal_ledger b p :
  notes (closeModal b p) = notes p /\ timers (closeModal b p) = timers p
  /\ requests (closeModal b p) = requests p.
Proof. unfold closeModal. by repeat case_match. Qed.

Lemma resultsClick_ledger w t p :
  notes (resultsClick w t p) = notes p /\ timers (resultsClick w t p) = timers p
  /\ requests (resultsClick w t p) = requests p.
Proof. unfold resultsClick. by repeat case_match. Qed.

Lemma windowClick_ledger t p :
  notes (windowClick t p) = notes p /\ timers (windowClick t p) = timers p
  /\ requests (windowClick t p) = requests p.
Proof. unfold windowClick. by repeat case_match. Qed.

Lemma listenersAt_ledger s t j p :
  notes (listenersAt s t j p) = notes p /\ timers (listenersAt s t j p) = timers p
  /\ requests (listenersAt s t j p) = requests p.
Proof.
  unfold listenersAt.
  set (p1 := if memb j (openModalButtons s) then openModal j p else p).
  assert (notes p1 = notes p /\ timers p1 = timers p /\ requests p1 = requests p)
    as (E1 & E2 & E3).
  { subst p1. destruct (memb j (openModalButtons s)); [apply openModal_ledger|done]. }
  set (p2 := if memb j (closeModalButtons s) then closeModal j p1 else p1).
  assert (notes p2 = notes p1 /\ timers p2 = timers p1 /\ requests p2 = requests p1)
    as (F1 & F2 & F3).
  { subst p2. destruct (memb j (closeModalButtons s)); [apply closeModal_ledger|done]. }
  destruct (search s) as [w|]; [|repeat split; congruence].
  destruct (Nat.eqb j (resultsPanel w)); [|repeat split; congruence].
  destruct (resultsClick_ledger w t p2) as (G1 & G2 & G3).
  repeat split; congruence.
Qed.

(** A click shows nothing, schedules nothing and requests nothing. *)
Lemma click_ledger s t p :
  notes (click s t p) = notes p /\ timers (click s t p) = timers p
  /\ requests (click s t p) = requests p.
Proof.
  unfold click.
  destruct (windowClick_ledger t
              (fold_left (fun q j => listenersAt s t j q) (eventPath s (dom p) t) p))
    as (-> & -> & ->).
  generalize (eventPath s (dom p) t). intros path. revert p.
  induction path as [|j path IH]; intros p; simpl; [done|].
  destruct (IH (listenersAt s t j p)) as (-> & -> & ->).
  apply listenersAt_ledger.
Qed.

(** What one event adds: nothing; or one request (a key release or a
    submission); or one notification with its removal scheduled, and, after
    a successful submission only, the reload. *)
Lemma step_ledger sip s p ev :
  let p' := step sip s p ev in
  (notes p' = notes p /\ timers p' = timers p
   /\ (requests p' = requests p
       \/ (mayFetch ev = true /\ exists r, requests p' = r :: requests p)))
  \/ (exists n,
        notes p' = n :: notes p /\ requests p' = requests p
        /\ (timers p' = (4000, HideNotification n) :: timers p
            \/ (timers p' = (500, Reload) :: (4000, HideNotification n) :: timers p
                /\ exists f o, ev = SubmitSettled f o /\ reportsSuccess o = true))).
Proof.
  intros p'. subst p'. destruct ev as [t| |o|f|f o]; simpl.
  - left. destruct (click_ledger s t p) as (-> & -> & ->). auto.
  - left. destruct (search s) as [w|]; [|auto]. unfold keyup.
    destruct (valueOf (dom p) (searchInput w)); auto.
    destruct (Nat.ltb _ 2); simpl; eauto 10.
  - left. destruct (search s) as [w|]; [|auto]. unfold searchSettled.
    destruct (_ ≫= renderResults sip); simpl; auto.
  - destruct (bindingOf s f) as [b|]; [|left; auto]. unfold submit.
    destruct (_ || _); [|left; simpl; eauto 10].
    destruct (getElementById _ _); [|right; eexists; simpl; eauto].
    destruct (negb _); [right; eexists; simpl; eauto|left; simpl; eauto 10].
  - destruct (bindingOf s f) as [b|]; [|left; auto].
    destruct (submitSettled_cases b o p)
      as (Hr & [(Hok & _ & n & Hn & _ & Ht)|(Hno & _ & n & Hn & _ & Ht)]);
      right; exists n; eauto 10.
Qed.

(** X5: Every notification on the page has its removal scheduled: if that holds
    of a page, it holds after any sequence of events. *)
Theorem notifications_have_timers sip s evs p :
  (forall n, In n (notes p) -> In (4000, HideNotification n) (timers p)) ->
  forall n, In n (notes (run sip s evs p)) ->
            In (4000, HideNotification n) (timers (run sip s evs p)).
Proof.
  unfold run. revert p. induction evs as [|ev evs IH]; intros p Hp; simpl; [done|].
  apply IH. intros n.
  destruct (step_ledger sip s p ev)
    as [(-> & -> & _)|(m & -> & _ & [-> |[-> _]])]; simpl; [auto|..].
  - intros [<-|Hn]; auto.
  - intros [<-|Hn]; auto.
Qed.

Lemma notifications_have_timers_witness :
  let p := run (fun _ => false) Samples.theScript
             [Submit 3; SubmitSettled 3 (Responded 200 (Json Samples.success))]
             Samples.page0 in
  length (notes p) = 2
  /\ forall n, In n (notes p) -> In (4000, HideNotification n) (timers p).
Proof.
  split; [reflexivity|].
  refine (notifications_have_timers (fun _ => false) Samples.theScript _
            Samples.page0 _).
  intros n [].
Defined.

(** X6: Only key releases and submissions issue requests, one each at most:
    the requests after a run are some new ones, no more than such events,
    in front of the old; no response, of either kind, makes the script
    ask again. *)
Theorem requests_bounded sip s evs p :
  exists new,
    requests (run sip s evs p) = (new ++ requests p)%list
    /\ length new <= length (List.filter mayFetch evs).
Proof.
  unfold run. revert p. induction evs as [|ev evs IH]; intros p; simpl.
  - by exists [].
  - destruct (IH (step sip s p ev)) as (new & -> & Hlen).
    destruct (step_ledger sip s p ev)
      as [(_ & _ & [-> |(Hm & r & ->)])|(m & _ & -> & _)].
    + exists new. split; [done|]. destruct (mayFetch ev); simpl; lia.
    + exists (new ++ [r])%list. rewrite <- app_assoc. split; [done|].
      rewrite Hm. rewrite length_app. simpl. lia.
    + exists new. split; [done|]. destruct (mayFetch ev); simpl; lia.
Qed.

(** X7: The page reload is scheduled by nothing but a submission that
    settles on the success branch, and then with the delay 500. *)
Theorem reload_only_after_success sip s evs p delay :
  In (delay, Reload) (timers (run sip s evs p)) ->
  In (delay, Reload) (timers p)
  \/ (delay = 500
      /\ exists f o, In (SubmitSettled f o) evs /\ reportsSuccess o = true).
Proof.
  unfold run. revert p. induction evs as [|ev evs IH]; intros p; simpl; [auto|].
  intros [Hin|(-> & f & o & Hin & Hok)]%IH; [|right; eauto 10].
  destruct (step_ledger sip s p ev)
    as [(_ & Ht & _)|(m & _ & _ & [Ht|[Ht (f & o & -> & Hok)]])];
    rewrite Ht in Hin.
  - auto.
  - destruct Hin as [?|Hin]; [done|auto].
  - destruct Hin as [[= <-]|[?|Hin]]; [|done|auto]. right. eauto 10.
Qed.

Lemma reload_only_after_success_witness :
  let evs := [SubmitSettled 3 (Responded 200 (Json Samples.success))] in
  In (500, Reload) (timers (run (fun _ => false) Samples.theScript evs Samples.page0))
  /\ exists f o, In (SubmitSettled f o) evs /\ reportsSuccess o = true.
Proof.
  assert (In (500, Reload)
            (timers (run (fun _ => false) Samples.theScript
                       [SubmitSettled 3 (Responded 200 (Json Samples.success))]
                       Samples.page0))) as Hin by (vm_compute; tauto).
  split; [exact Hin|].
  destruct (reload_only_after_success _ _ _ _ _ Hin) as [[]|[_ H]]. exact H.
Defined.

End LedgerSpec.

(** ** Form submission: bindings, repeated submissions, failures *)

Module SubmitExtra.
Import Dom Page DomFacts PageFacts.

(** X9: The forms bound at load are different elements, one per form id that
    names an element; an id that names none gets no listener. *)
Theorem bindings_distinct (d : document) :
  List.NoDup (form <$> bindings (load d))
  /\ (forall id ok ko, In (id, ok, ko) mainForms ->
        (getElementById id d = None ->
         forall b, In b (bindings (load d)) -> formId b <> id)
        /\ (forall i, getElementById id d = Some i ->
              In (Binding i id ok ko) (bindings (load d)))).
Proof.
  split.
  - unfold load, mainForms, handleFormSubmission. simpl.
    destruct (getElementById "patientForm" d) eqn:E1;
      destruct (getElementById "consultationForm" d) eqn:E2;
      destruct (getElementById "medicineForm" d) eqn:E3;
      destruct (getElementById "appointmentForm" d) eqn:E4;
      simpl; repeat constructor; simpl;
      intros H; repeat (destruct H as [H|H]; [subst|]); try done;
      match goal with
      | H1 : getElementById ?a d = Some ?x, H2 : getElementById ?b d = Some ?x |- _ =>
          assert (a = b) by (by eapply getElementById_inj); discriminate
      end.
  - intros id ok ko Hin. split.
    + intros Hnone b Hb Hid.
      destruct (SubmitSpec.bindings_load d b Hb) as [_ H]. congruence.
    + intros i Hi. unfold mainForms in Hin. simpl in Hin.
      unfold load, mainForms, handleFormSubmission. simpl.
      repeat (destruct Hin as [Hin|Hin];
              [injection Hin as <- <- <-; rewrite ?Hi; simpl;
               repeat (destruct (getElementById _ d); simpl); tauto|]).
      destruct Hin.
Qed.

(** X10: Nothing guards against a second submission: when a submission is
    posted, submitting again before anything else happens posts the same
    body once more. *)
Theorem double_submit_posts_twice (b : binding) (p : page) :
  let post := Post endpoint (formData (dom p) (form b)) in
  requests (submit b p) = post :: requests p ->
  requests (submit b (submit b p)) = post :: post :: requests p.
Proof.
  intros post. unfold submit.
  assert (forall l : list request, l = post :: l -> False) as Hne.
  { intros l Hl. apply (f_equal length) in Hl. simpl in Hl. lia. }
  destruct (_ || _); simpl; [|done].
  destruct (getElementById "patient_id_input" (dom p)) as [i|] eqn:Hi; simpl.
  - destruct (negb (JS.truthy (valueOf (dom p) i))) eqn:Hv; simpl.
    + intros H. by apply Hne in H.
    + by rewrite Hi, Hv.
  - intros H. by apply Hne in H.
Qed.

Lemma double_submit_posts_twice_witness :
  requests (submit Samples.patient Samples.page0)
  = [Post endpoint [("full_name", "Ann")]]
  /\ requests (submit Samples.patient (submit Samples.patient Samples.page0))
     = [Post endpoint [("full_name", "Ann")]; Post endpoint [("full_name", "Ann")]].
Proof.
  split; [reflexivity|].
  exact (double_submit_posts_twice Samples.patient Samples.page0 eq_refl).
Defined.

(** X11: Whatever way a submission settles short of the success branch (the
    fetch rejected, a status outside 2xx even with a body that says
    success, a body that is not JSON, [null], or any other [status]), the
    handler shows exactly one notification of class error, leaves the
    document as it is, and schedules nothing but that notification's
    removal. *)
Theorem unsuccessful_submission_keeps_form (b : binding) (o : outcome) (p : page) :
  reportsSuccess o = false ->
  let p' := submitSettled b o p in
  dom p' = dom p
  /\ requests p' = requests p
  /\ exists text,
       let n := Notification "notification notification-error" text in
       notes p' = n :: notes p
       /\ timers p' = (4000, HideNotification n) :: timers p.
Proof.
  intros Hno p'.
  destruct (LedgerSpec.submitSettled_cases b o p)
    as (Hr & [(Hok & _)|(_ & Hd & [cls text] & Hn & Hc & Ht)]); [congruence|].
  simpl in Hc. subst cls. split; [done|]. split; [done|]. by exists text.
Qed.

Lemma unsuccessful_submission_keeps_form_witness :
  reportsSuccess (Responded 500 (Json Samples.success)) = false
  /\ reportsSuccess (Responded 200 (Json JS.VNull)) = false
  /\ dom (submitSettled Samples.consultation (Responded 200 (Json JS.VNull))
            Samples.page0) = Samples.doc.
Proof.
  split; [reflexivity|]. split; [reflexivity|].
  exact (proj1 (unsuccessful_submission_keeps_form Samples.consultation
                  (Responded 200 (Json JS.VNull)) Samples.page0 eq_refl)).
Defined.

(** X12: On the success branch the handler writes to the controls of the bound
    form and to the enclosing modal only: every other element, the fields
    of other forms included, is as it was. *)
Theorem success_touches_form_and_modal_only (b : binding) (p : page)
    (status : Z) (data : JS.value) (j : nat) :
  responseOk status = true ->
  JS.getProp data "status" = JS.Ok (JS.VStr "success") ->
  ownedBy (dom p) (form b) j = false ->
  closest "modal" (dom p) (form b) <> Some j ->
  dom (submitSettled b (Responded status (Json data)) p) !! j = dom p !! j.
Proof.
  intros Hok Hst Hown Hm.
  unfold submitSettled, checkResponse. rewrite Hok. simpl.
  unfold handleData. rewrite Hst. simpl.
  rewrite (closest_shape (dom p) _ (sameShape_resetForm (form b) (dom p))).
  assert (resetForm (form b) (dom p) !! j = dom p !! j) as Hreset.
  { unfold resetForm. rewrite list_lookup_imap, Hown. by destruct (dom p !! j). }
  destruct (closest "modal" (dom p) (form b)) as [m|]; simpl; [|done].
  rewrite list_lookup_alter_ne by congruence. done.
Qed.

Lemma success_touches_form_and_modal_only_witness :
  ownedBy Samples.doc 3 11 = false
  /\ closest "modal" Samples.doc 3 = Some 0
  /\ value <$> dom (submitSettled Samples.consultation
                      (Responded 200 (Json Samples.success)) Samples.page0) !! 11
     = Some (Some "Ann").
Proof.
  split; [reflexivity|]. split; [reflexivity|].
  rewrite (success_touches_form_and_modal_only Samples.consultation Samples.page0
             200 Samples.success 11 eq_refl eq_refl eq_refl); [reflexivity|].
  vm_compute. discriminate.
Defined.

End SubmitExtra.

(** ** Patient search: the request, malformed responses, selection *)

Module SearchExtra.
Import Dom Page DomFacts PageFacts.

Lemma trimStart_blank v : allChars isSpace v = true -> trimStart v = "".
Proof.
  induction v as [|c v IH]; simpl; [done|].
  intros [Hc Hv]%andb_true_iff. rewrite Hc. auto.
Qed.

(** X13: A value made of white space only, however long, is a short term: the
    panel is emptied and no request is issued. *)
Theorem blank_input_never_searches (w : wiring) (p : page) (v : string) :
  valueOf (dom p) (searchInput w) = JS.VStr v ->
  allChars isSpace v = true ->
  keyup w p = withDom (alter (setInner (Html "")) (resultsPanel w)) p
  /\ requests (keyup w p) = requests p.
Proof.
  intros Hv Hblank. unfold keyup. rewrite Hv.
  unfold trim. rewrite (trimStart_blank v Hblank).
  change (String.rev "") with "". simpl. done.
Qed.

Lemma blank_input_never_searches_witness :
  allChars isSpace "     " = true
  /\ requests (keyup Samples.theWiring
                 (withDom (alter (setValue "     ") 4) Samples.page0)) = [].
Proof.
  split; [reflexivity|].
  exact (proj2 (blank_input_never_searches Samples.theWiring
                  (withDom (alter (setValue "     ") 4) Samples.page0) "     "
                  eq_refl eq_refl)).
Defined.

Lemma allChars_append f a b :
  allChars f (a ++ b) = allChars f a && allChars f b.
Proof.
  induction a as [|c a IH]; [done|].
  change (allChars f (String c (a ++ b)) = allChars f (String c a) && allChars f b).
  simpl. by rewrite IH, andb_assoc.
Qed.

Lemma encodeUnit_safe c :
  allChars (fun x => isUnreserved x || Ascii.eqb x "%") (encodeUnit c) = true.
Proof. destruct c as [[] [] [] [] [] [] [] []]; reflexivity. Qed.

Lemma encodeURIComponent_safe s :
  allChars (fun x => isUnreserved x || Ascii.eqb x "%") (encodeURIComponent s) = true.
Proof.
  induction s as [|c s IH]; [done|].
  change (encodeURIComponent (String c s))
    with (encodeUnit c ++ encodeURIComponent s).
  by rewrite allChars_append, encodeUnit_safe, IH.
Qed.

(** X14: A key release with a trimmed value of two code units or more issues
    exactly one GET to the search endpoint and touches nothing else (the
    rows of an earlier search stay until the response arrives).  The term
    in the URL consists of unreserved characters and [%] only, so no value
    typed can add a parameter or a fragment to the request. *)
Theorem keyup_issues_search (w : wiring) (p : page) (v : string) :
  valueOf (dom p) (searchInput w) = JS.VStr v ->
  2 <= String.length (trim v) ->
  let p' := keyup w p in
  let term := encodeURIComponent (trim v) in
  requests p'
  = Get ("/clinic-system/api/handler.php?action=search_patients&term=" ++ term)
      :: requests p
  /\ dom p' = dom p /\ notes p' = notes p /\ timers p' = timers p
  /\ allChars (fun x => isUnreserved x || Ascii.eqb x "%") term = true.
Proof.
  intros Hv Hlen p' term. subst p'. unfold keyup. rewrite Hv.
  assert (Nat.ltb (String.length (trim v)) 2 = false) as ->
    by (apply Nat.ltb_ge; lia).
  repeat split. apply encodeURIComponent_safe.
Qed.

Lemma keyup_issues_search_witness :
  2 <= String.length (trim " a&b=c ")
  /\ requests (keyup Samples.theWiring
                 (withDom (alter (setValue " a&b=c ") 4) Samples.page0))
     = [Get "/clinic-system/api/handler.php?action=search_patients&term=a%26b%3Dc"].
Proof.
  assert (2 <= String.length (trim " a&b=c ")) as Hlen by (vm_compute; lia).
  split; [exact Hlen|].
  exact (proj1 (keyup_issues_search Samples.theWiring
                  (withDom (alter (setValue " a&b=c ") 4) Samples.page0)
                  " a&b=c " eq_refl Hlen)).
Defined.

Lemma rowMarkup_throws p e : rowMarkup p = JS.Throw e -> JS.errName e = "TypeError".
Proof. unfold rowMarkup. destruct p; simpl; intros; by simplify_eq. Qed.

Lemma forEachRow_null items html :
  In JS.VNull items ->
  exists e, forEachRow items html = JS.Throw e /\ JS.errName e = "TypeError".
Proof.
  revert html. induction items as [|x items IH]; intros html Hin; [done|].
  simpl. destruct (rowMarkup x) as [row|e] eqn:Hx; simpl.
  - destruct Hin as [-> |Hin]; [done|]. by apply IH.
  - exists e. split; [done|]. by eapply rowMarkup_throws.
Qed.

(** X15: One [null] entry in the response array spoils the whole response: the
    loop throws a TypeError, the chain's [catch] logs it, and the panel
    keeps what it held: not even the rows before the [null] are rendered,
    and nothing is shown to the user. *)
Theorem null_entry_drops_response (stringIsPositive : string -> bool)
    (w : wiring) (p : page) (status : Z) (items : list JS.value) :
  In JS.VNull items ->
  exists e,
    JS.errName e = "TypeError"
    /\ searchSettled stringIsPositive w (Responded status (Json (JS.VArr items))) p
       = consoleError "Error searching patients:" (Some e) p.
Proof.
  intros Hin. unfold searchSettled, renderResults. simpl.
  assert (Z.ltb 0 (Z.of_nat (length items)) = true) as ->.
  { destruct items; [done|]. simpl. apply Z.ltb_lt. lia. }
  destruct (forEachRow_null items "" Hin) as (e & -> & He).
  by exists e.
Qed.

Lemma null_entry_drops_response_witness :
  In JS.VNull [Samples.ann; JS.VNull]
  /\ exists e,
       JS.errName e = "TypeError"
       /\ searchSettled (fun _ => false) Samples.theWiring
            (Responded 200 (Json (JS.VArr [Samples.ann; JS.VNull]))) Samples.page0
          = consoleError "Error searching patients:" (Some e) Samples.page0.
Proof.
  assert (In JS.VNull [Samples.ann; JS.VNull]) as Hin by (right; left; reflexivity).
  split; [exact Hin|].
  exact (null_entry_drops_response (fun _ => false) Samples.theWiring Samples.page0
           200 [Samples.ann; JS.VNull] Hin).
Defined.



End SearchExtra.

(** ** The registration made at load stays valid *)

Module StabilitySpec.
Import Dom Page DomFacts PageFacts.

(** X8: On a page whose result panel and name display contain no elements of
    the document, no listener removes, moves, renames or reclasses an
    element: after any sequence of events the document has the elements it
    had, each with the tag, parent, id, name, class list and attributes it
    had; what changes in an element is its display, its value, its value
    attribute and its contents. *)
Theorem elements_keep_shape sip (s : script) (evs : list event) (p : page) :
  (forall w, search s = Some w ->
     childless (dom p) (resultsPanel w) = true
     /\ (forall n, nameDisplay w = Some n -> childless (dom p) n = true)) ->
  let p' := run sip s evs p in
  length (dom p') = length (dom p)
  /\ forall i e, dom p !! i = Some e ->
       exists e', dom p' !! i = Some e'
                  /\ tag e' = tag e /\ parent e' = parent e
                  /\ idAttr e' = idAttr e /\ nameAttr e' = nameAttr e
                  /\ classes e' = classes e /\ dataAttrs e' = dataAttrs e.
Proof.
  intros _ p'. pose proof (run_shape sip s evs p) as Hs. fold p' in Hs.
  split; [by apply sameShape_length|].
  intros i e He. pose proof (sameShape_lookup _ _ i Hs) as Hl.
  rewrite He in Hl. destruct (dom p' !! i) as [e'|]; [|done].
  exists e'. cbn [fmap option_fmap option_map] in Hl. unfold skeleton in Hl.
  injection Hl as Ht Hp Hi Hn Hc Hd. by repeat split.
Qed.

Lemma elements_keep_shape_witness :
  search Samples.theScript = Some Samples.theWiring
  /\ (let p' := run (fun _ => false) Samples.theScript
                  [SearchSettled (Responded 200 (Json (JS.VArr [Samples.ann])));
                   Click (InResults Samples.annRow); Click (InDocument 2)]
                  Samples.page0 in
      length (dom p') = 12
      /\ exists e', dom p' !! 6 = Some e'
                    /\ tag e' = "input" /\ parent e' = Some 3
                    /\ idAttr e' = Some "patient_id_input"
                    /\ value e' = Some "").
Proof.
  split; [reflexivity|].
  destruct (elements_keep_shape (fun _ => false) Samples.theScript
              [SearchSettled (Responded 200 (Json (JS.VArr [Samples.ann])));
               Click (InResults Samples.annRow); Click (InDocument 2)]
              Samples.page0) as (Hlen & Hel).
  { intros w Hw. vm_compute in Hw. injection Hw as <-.
    split; [reflexivity|]. intros n Hn. injection Hn as <-. reflexivity. }
  split; [exact Hlen|].
  destruct (Hel 6 _ eq_refl) as (e' & He' & Htag & Hpar & Hid & _).
  exists e'. split; [exact He'|]. split; [exact Htag|]. split; [exact Hpar|].
  split; [exact Hid|].
  vm_compute in He'. by injection He' as <-.
Defined.

End StabilitySpec.

(** ** firebase_app.js: readiness, subscriptions, snapshots *)

Module FirebaseExtra.
Import Firebase.

Section Session.

Variable sdk : SDK.

(** Right after [initializeFirebase], whatever the SDK did: not ready, no
    user, no subscription; and an observer only with all three handles. *)
Lemma initializeFirebase_state config token :
  let s0 := initializeFirebase sdk config token (initial sdk) in
  isAuthReady sdk s0 = false /\ userId sdk s0 = None /\ subscriptions sdk s0 = []
  /\ (observer sdk s0 = true ->
      is_Some (app sdk s0) /\ is_Some (db sdk s0) /\ is_Some (auth sdk s0)).
Proof.
  unfold initializeFirebase, tryCatch. simpl.
  unfold mbind, M_bind, bind, call, modify. simpl.
  destruct (keyCount config) as [[|k]|e]; simpl; [done..| |done].
  destruct (initializeApp sdk config) as [a|e]; simpl; [|done].
  destruct (getFirestore sdk a) as [d|e]; simpl; [|done].
  destruct (getAuth sdk a) as [au|e]; simpl; [|done].
  destruct (JS.truthy token); simpl.
  - destruct (signInWithCustomToken sdk au token); simpl; [|done].
    destruct (onAuthStateChanged sdk au); simpl; [|done]. eauto 10.
  - destruct (signInAnonymously sdk au); simpl; [|done].
    destruct (onAuthStateChanged sdk au); simpl; [|done]. eauto 10.
Qed.

Lemma step_keeps (appId : JS.value) (s : state sdk) (e : event) :
  let s' := step sdk appId s e in
  app sdk s' = app sdk s /\ db sdk s' = db sdk s /\ auth sdk s' = auth sdk s
  /\ observer sdk s' = observer sdk s
  /\ (isAuthReady sdk s = true -> isAuthReady sdk s' = true)
  /\ (isAuthReady sdk s' = true ->
      (isAuthReady sdk s = true /\ userId sdk s' = userId sdk s)
      \/ (observer sdk s = true /\ is_Some (userId sdk s')))
  /\ (subscriptions sdk s' = subscriptions sdk s
      \/ exists uid, uid <> "" /\ isAuthReady sdk s = true
                     /\ subscriptions sdk s'
                        = collectionPath appId uid :: subscriptions sdk s).
Proof.
  destruct s as [sa sd sau su sr so ssub scon].
  destruct e as [user uuid|]; simpl.
  - destruct so; [destruct user|]; simpl;
      repeat split; auto; intros; eauto.
  - unfold fetchRealtimeData. simpl.
    destruct sr; [|simpl; repeat split; auto].
    destruct sd as [d|]; [|simpl; repeat split; auto].
    destruct su as [[|c r]|]; [simpl; repeat split; auto| |simpl; repeat split; auto].
    destruct (onSnapshot sdk d _); simpl; repeat split; auto.
    right. exists (String c r). by repeat split.
Qed.

(** What holds of every state the module reaches. *)
Lemma run_invariant (appId : JS.value) (es : list event) (s : state sdk) :
  (observer sdk s = true -> is_Some (app sdk s) /\ is_Some (db sdk s) /\ is_Some (auth sdk s)) ->
  (isAuthReady sdk s = true -> observer sdk s = true /\ is_Some (userId sdk s)) ->
  (forall path, In path (subscriptions sdk s) ->
     exists uid, uid <> "" /\ path = collectionPath appId uid) ->
  let s' := run sdk appId es s in
  (observer sdk s' = true ->
   is_Some (app sdk s') /\ is_Some (db sdk s') /\ is_Some (auth sdk s'))
  /\ (isAuthReady sdk s' = true -> observer sdk s' = true /\ is_Some (userId sdk s'))
  /\ (forall path, In path (subscriptions sdk s') ->
        exists uid, uid <> "" /\ path = collectionPath appId uid).
Proof.
  unfold run. revert s. induction es as [|e es IH]; intros s H1 H2 H3; simpl; [done|].
  destruct (step_keeps appId s e) as (Ea & Ed & Eau & Eo & _ & Hr & Hsub).
  apply IH.
  - rewrite Ea, Ed, Eau, Eo. exact H1.
  - intros Hready. rewrite Eo.
    destruct (Hr Hready) as [[Hr0 Hu]|[Ho Hu]]; [|done].
    rewrite Hu. by apply H2.
  - intros path. destruct Hsub as [-> |(uid & Hne & _ & ->)]; [by apply H3|].
    intros [<-|Hin]; [eauto|by apply H3].
Qed.

(** X17: The session invariant: in every state reached from the module's start,
    whatever the configuration, the token and the SDK's answers, a true
    readiness flag comes with all three handles and a user identifier. *)
Theorem ready_implies_handles (config token appId : JS.value) (es : list event) :
  let s := run sdk appId es (initializeFirebase sdk config token (initial sdk)) in
  isAuthReady sdk s = true ->
  is_Some (app sdk s) /\ is_Some (db sdk s) /\ is_Some (auth sdk s)
  /\ is_Some (userId sdk s).
Proof.
  intros s Hready.
  destruct (initializeFirebase_state config token) as (Hr & Hu & Hsub & Ho).
  destruct (run_invariant appId es _ Ho) as (H1 & H2 & _).
  - by rewrite Hr.
  - by rewrite Hsub.
  - destruct (H2 Hready) as [Hobs Huid]. destruct (H1 Hobs) as (? & ? & ?). done.
Qed.

(** X18: Every subscription ever opened listens on
    [/artifacts/<appId>/users/<uid>/your_items] for a non-empty [uid]. *)
Theorem subscriptions_follow_pattern (config token appId : JS.value)
    (es : list event) (path : string) :
  In path (subscriptions sdk
             (run sdk appId es (initializeFirebase sdk config token (initial sdk)))) ->
  exists uid,
    uid <> ""
    /\ path = "/artifacts/" ++ JS.toString appId ++ "/users/" ++ uid ++ "/your_items".
Proof.
  intros Hin.
  destruct (initializeFirebase_state config token) as (Hr & Hu & Hsub & Ho).
  destruct (run_invariant appId es _ Ho) as (_ & _ & H3).
  - by rewrite Hr.
  - by rewrite Hsub.
  - exact (H3 path Hin).
Qed.

(** X19: After the module has started, no event changes a handle, clears the
    readiness flag or drops a subscription: subscriptions are only added. *)
Theorem handles_and_subscriptions_persist (appId : JS.value) (es : list event)
    (s : state sdk) :
  let s' := run sdk appId es s in
  app sdk s' = app sdk s /\ db sdk s' = db sdk s /\ auth sdk s' = auth sdk s
  /\ (isAuthReady sdk s = true -> isAuthReady sdk s' = true)
  /\ exists new, subscriptions sdk s' = (new ++ subscriptions sdk s)%list.
Proof.
  unfold run. revert s. induction es as [|e es IH]; intros s; simpl.
  - repeat split; [done|]. by exists [].
  - destruct (IH (step sdk appId s e)) as (-> & -> & -> & Hr & new & ->).
    destruct (step_keeps appId s e) as (-> & -> & -> & _ & Hr' & _ & Hsub).
    repeat split; [auto|].
    destruct Hsub as [-> |(uid & _ & _ & ->)]; [by exists new|].
    exists (new ++ [collectionPath appId uid])%list. by rewrite <- app_assoc.
Qed.

(** X20: When signing in fails, the handles are already set and stay set, the
    error is printed, and the observer is never registered: the readiness
    flag stays false and no subscription is opened, whatever happens next. *)
Theorem failed_sign_in_never_ready (config token appId : JS.value) (k : nat)
    (a d au : handle sdk) (e : JS.error) (es : list event) :
  keyCount config = JS.Ok (S k) ->
  initializeApp sdk config = JS.Ok a ->
  getFirestore sdk a = JS.Ok d ->
  getAuth sdk a = JS.Ok au ->
  (if JS.truthy token then signInWithCustomToken sdk au token
   else signInAnonymously sdk au) = JS.Throw e ->
  let s0 := initializeFirebase sdk config token (initial sdk) in
  let s := run sdk appId es s0 in
  hd_error (console sdk s0) = Some (Line LError "Firebase initialization failed:" (ErrArg e))
  /\ app sdk s = Some a /\ db sdk s = Some d /\ auth sdk s = Some au
  /\ isAuthReady sdk s = false
  /\ subscriptions sdk s = [].
Proof.
  intros Hk Ha Hd Hau Hsign s0 s.
  assert (console sdk s0
          = Line LError "Firebase initialization failed:" (ErrArg e) :: tl (console sdk s0)
          /\ app sdk s0 = Some a /\ db sdk s0 = Some d /\ auth sdk s0 = Some au
          /\ isAuthReady sdk s0 = false /\ observer sdk s0 = false
          /\ subscriptions sdk s0 = []) as (Hc & Ea & Ed & Eau & Hr & Ho & Hsub).
  { subst s0. unfold initializeFirebase, tryCatch. simpl.
    unfold mbind, M_bind, bind, call, modify. simpl.
    rewrite Hk. simpl. rewrite Ha. simpl. rewrite Hd. simpl. rewrite Hau. simpl.
    destruct (JS.truthy token); simpl; rewrite Hsign; simpl; done. }
  split; [by rewrite Hc|]. subst s.
  destruct (handles_and_subscriptions_persist appId es s0) as (-> & -> & -> & _).
  repeat (split; [done|]).
  assert (forall es (t : state sdk),
            isAuthReady sdk t = false -> observer sdk t = false ->
            subscriptions sdk t = [] ->
            isAuthReady sdk (run sdk appId es t) = false
            /\ subscriptions sdk (run sdk appId es t) = []) as Hdormant.
  { clear. unfold run. induction es as [|ev es IH]; intros t Hr Ho Hs; simpl; [done|].
    destruct (step_keeps appId t ev) as (_ & _ & _ & Eo & _ & Hr' & Hsub).
    apply IH.
    - destruct (isAuthReady sdk (step sdk appId t ev)) eqn:E; [|done].
      destruct (Hr' eq_refl) as [[? _]|[? _]]; congruence.
    - congruence.
    - destruct Hsub as [-> |(? & _ & ? & _)]; [done|congruence]. }
  by apply Hdormant.
Qed.

(** X21: A session end to end: when every SDK call succeeds, a call of
    [fetchRealtimeData] made before the observer has run only prints its
    error; once the observer has run, with a user or with [null] and the
    random identifier, the call opens one subscription on that user's
    collection. *)
Theorem session_subscribes_after_auth (config token appId : JS.value) (k : nat)
    (a d au : handle sdk) (user : option string) (uuid : string) :
  keyCount config = JS.Ok (S k) ->
  initializeApp sdk config = JS.Ok a ->
  getFirestore sdk a = JS.Ok d ->
  getAuth sdk a = JS.Ok au ->
  (if JS.truthy token then signInWithCustomToken sdk au token
   else signInAnonymously sdk au) = JS.Ok tt ->
  onAuthStateChanged sdk au = JS.Ok tt ->
  let uid := default uuid user in
  uid <> "" ->
  onSnapshot sdk d (collectionPath appId uid) = JS.Ok tt ->
  let s0 := initializeFirebase sdk config token (initial sdk) in
  subscriptions sdk (run sdk appId [FetchRealtimeData] s0) = []
  /\ userId sdk (run sdk appId [AuthStateChanged user uuid] s0) = Some uid
  /\ subscriptions sdk
       (run sdk appId [AuthStateChanged user uuid; FetchRealtimeData] s0)
     = [collectionPath appId uid].
Proof.
  intros Hk Ha Hd Hau Hsign Hobs uid Hne Hsnap s0.
  assert (s0 = State sdk (Some a) (Some d) (Some au) None false true []
                 (console sdk s0)) as ->.
  { subst s0. unfold initializeFirebase, tryCatch. simpl.
    unfold mbind, M_bind, bind, call, modify. simpl.
    rewrite Hk. simpl. rewrite Ha. simpl. rewrite Hd. simpl. rewrite Hau. simpl.
    destruct (JS.truthy token); simpl; rewrite Hsign; simpl; rewrite Hobs; done. }
  split; [done|]. subst uid.
  assert (exists c r, default uuid user = String c r) as (c & r & E).
  { destruct (default uuid user); [done|eauto]. }
  rewrite E in Hsnap.
  destruct user as [u|]; simpl in E; subst; simpl;
    (split; [done|]); unfold fetchRealtimeData; simpl; by rewrite Hsnap.
Qed.

(** X22: Nothing remembers an open subscription: with the session ready, [n]
    calls of [fetchRealtimeData] open [n] subscriptions on the same path. *)
Theorem every_fetch_subscribes_again (appId : JS.value) (s : state sdk)
    (d : handle sdk) (uid : string) (n : nat) :
  isAuthReady sdk s = true ->
  db sdk s = Some d ->
  userId sdk s = Some uid ->
  uid <> "" ->
  onSnapshot sdk d (collectionPath appId uid) = JS.Ok tt ->
  subscriptions sdk (run sdk appId (repeat FetchRealtimeData n) s)
  = (repeat (collectionPath appId uid) n ++ subscriptions sdk s)%list.
Proof.
  intros Hr Hd Hu Hne Hsnap. unfold run. revert s Hr Hd Hu.
  induction n as [|n IH]; intros s Hr Hd Hu; simpl; [done|].
  assert (fetchRealtimeData sdk appId s
          = State sdk (app sdk s) (db sdk s) (auth sdk s) (userId sdk s) true
              (observer sdk s) (collectionPath appId uid :: subscriptions sdk s)
              (Line LLog "Listening to collection:" (StrArg (collectionPath appId uid))
                 :: console sdk s)) as ->.
  { unfold fetchRealtimeData. rewrite Hr, Hd, Hu.
    destruct uid as [|c r]; [done|]. rewrite Hsnap. simpl. by rewrite Hr, Hd, Hu. }
  rewrite IH by done. simpl.
  change (collectionPath appId uid :: subscriptions sdk s)
    with ([collectionPath appId uid] ++ subscriptions sdk s)%list.
  rewrite app_assoc. f_equal.
  clear. induction n as [|n IH]; simpl; [done|]. by rewrite IH.
Qed.

End Session.

Lemma failed_sign_in_never_ready_witness :
  keyCount Samples.config = JS.Ok 1
  /\ isAuthReady Samples.offlineSdk
       (run Samples.offlineSdk (JS.VStr "clinic")
          [AuthStateChanged (Some "u1") "r"; FetchRealtimeData]
          (initializeFirebase Samples.offlineSdk Samples.config JS.VNull
             (initial Samples.offlineSdk))) = false.
Proof.
  split; [reflexivity|].
  exact (proj1 (proj2 (proj2 (proj2 (proj2
    (failed_sign_in_never_ready Samples.offlineSdk Samples.config JS.VNull
       (JS.VStr "clinic") 0 tt tt tt Samples.authError
       [AuthStateChanged (Some "u1") "r"; FetchRealtimeData]
       eq_refl eq_refl eq_refl eq_refl eq_refl)))))).
Defined.

Lemma session_subscribes_after_auth_witness :
  keyCount Samples.config = JS.Ok 1
  /\ subscriptions Samples.okSdk
       (run Samples.okSdk (JS.VStr "clinic")
          [AuthStateChanged None "r-42"; FetchRealtimeData]
          (initializeFirebase Samples.okSdk Samples.config JS.VNull
             (initial Samples.okSdk)))
     = ["/artifacts/clinic/users/r-42/your_items"].
Proof.
  split; [reflexivity|].
  exact (proj2 (proj2
    (session_subscribes_after_auth Samples.okSdk Samples.config JS.VNull
       (JS.VStr "clinic") 0 tt tt tt None "r-42"
       eq_refl eq_refl eq_refl eq_refl eq_refl eq_refl
       ltac:(discriminate) eq_refl))).
Defined.

Lemma ready_implies_handles_witness :
  let s := run Samples.okSdk (JS.VStr "clinic") [AuthStateChanged (Some "u1") "r"]
             (initializeFirebase Samples.okSdk Samples.config JS.VNull
                (initial Samples.okSdk)) in
  isAuthReady Samples.okSdk s = true /\ is_Some (db Samples.okSdk s).
Proof.
  split; [reflexivity|].
  exact (proj1 (proj2
    (ready_implies_handles Samples.okSdk Samples.config JS.VNull (JS.VStr "clinic")
       [AuthStateChanged (Some "u1") "r"] eq_refl))).
Defined.

Lemma subscriptions_follow_pattern_witness :
  let s := run Samples.okSdk (JS.VStr "clinic")
             [AuthStateChanged (Some "u1") "r"; FetchRealtimeData]
             (initializeFirebase Samples.okSdk Samples.config JS.VNull
                (initial Samples.okSdk)) in
  In "/artifacts/clinic/users/u1/your_items" (subscriptions Samples.okSdk s)
  /\ exists uid, uid <> ""
       /\ "/artifacts/clinic/users/u1/your_items"
          = "/artifacts/" ++ JS.toString (JS.VStr "clinic") ++ "/users/" ++ uid
            ++ "/your_items".
Proof.
  assert (In "/artifacts/clinic/users/u1/your_items"
            (subscriptions Samples.okSdk
               (run Samples.okSdk (JS.VStr "clinic")
                  [AuthStateChanged (Some "u1") "r"; FetchRealtimeData]
                  (initializeFirebase Samples.okSdk Samples.config JS.VNull
                     (initial Samples.okSdk))))) as Hin by (left; reflexivity).
  split; [exact Hin|].
  exact (subscriptions_follow_pattern Samples.okSdk Samples.config JS.VNull
           (JS.VStr "clinic") _ _ Hin).
Defined.

Lemma every_fetch_subscribes_again_witness :
  let s := State Samples.okSdk (Some tt) (Some tt) (Some tt) (Some "u1") true true
             [] [] in
  subscriptions Samples.okSdk
    (run Samples.okSdk (JS.VStr "clinic") (repeat FetchRealtimeData 3) s)
  = repeat "/artifacts/clinic/users/u1/your_items" 3.
Proof.
  exact (every_fetch_subscribes_again Samples.okSdk (JS.VStr "clinic")
           (State Samples.okSdk (Some tt) (Some tt) (Some tt) (Some "u1") true true
              [] [])
           tt "u1" 3 eq_refl eq_refl eq_refl ltac:(discriminate) eq_refl).
Defined.

(** X23: The array the snapshot callback builds has one item per document, in
    order, none dropped; an item reads back the document's fields, and its
    [id] is the document's identifier unless the data has a field named
    [id], which then takes its place. *)
Theorem snapshot_items (docs : list snapshotDoc) :
  snapshotItems docs = itemOf <$> docs
  /\ forall i doc, docs !! i = Some doc ->
       exists item,
         snapshotItems docs !! i = Some item
         /\ JS.getProp item "id"
            = JS.Ok (default (JS.VStr (docId doc)) (JS.lookupField "id" (docData doc)))
         /\ forall k, k <> "id" ->
              JS.getProp item k
              = JS.Ok (default JS.VUndefined (JS.lookupField k (docData doc))).
Proof.
  assert (forall acc, fold_left (fun items doc => (items ++ [itemOf doc])%list) docs acc
                      = (acc ++ (itemOf <$> docs))%list) as Hfold.
  { induction docs as [|doc docs IH]; intros acc; simpl.
    - by rewrite app_nil_r.
    - rewrite IH. by rewrite <- app_assoc. }
  assert (snapshotItems docs = itemOf <$> docs) as Heq by apply (Hfold []).
  split; [exact Heq|].
  intros i doc Hi. exists (itemOf doc). rewrite Heq, list_lookup_fmap, Hi.
  split; [done|]. unfold itemOf. simpl. split.
  - by destruct (JS.lookupField "id" (docData doc)).
  - intros k Hk. destruct (JS.lookupField k (docData doc)); [done|].
    apply String.eqb_neq in Hk. by rewrite Hk.
Qed.

End FirebaseExtra.
